(** * ipapk: extraction of app metadata from .apk / .ipa archives

    A shallow embedding of [parser.go] (package [ipapk]) together with the
    properties of its dispatcher, its container classification loop, its
    property-list field mapping and its icon helpers.

    Layout of the development:
    - the pieces of Go's standard library the parser calls ([strings],
      [path/filepath], [regexp]) as executable functions on byte strings;
    - the data model ([appInfo], [androidManifest], [iosPlist], zip entries);
    - a small trace-and-panic monad [Go] for effectful code;
    - the functions of [parser.go], one definition per Go function;
    - the older revision of the same file (module [Rev0]);
    - theorems. *)

From Stdlib Require Import String Ascii List ZArith Lia Bool Strings.Byte.
From stdpp Require Import base option gmap strings list.

Import ListNotations.
Local Open Scope string_scope.
Local Open Scope list_scope.

(** ** Go's [strings] package, on byte strings

    A Go [string] is a sequence of bytes; it is modelled as [string]
    (a sequence of [ascii], i.e. of 8-bit characters). *)

Module strings.

(** [strings.HasPrefix(s, prefix)] *)
Definition HasPrefix (s p : string) : bool := String.prefix p s.

(** [strings.Contains(s, substr)]: [substr] occurs at some offset of [s].
    The empty string occurs in every string. *)
Fixpoint Contains (s substr : string) : bool :=
  HasPrefix s substr ||
  match s with
  | EmptyString => false
  | String _ s' => Contains s' substr
  end.

(** [strings.Split(s, sep)] for a non-empty [sep] (every separator in
    [parser.go] is a non-empty literal): the pieces of [s] between the
    non-overlapping occurrences of [sep], scanned left to right.  [skip]
    counts the bytes of a recognised separator still to be dropped. *)
Fixpoint splitFrom (sep : string) (skip : nat) (s : string) : list string :=
  match s with
  | EmptyString => [EmptyString]
  | String c s' =>
      match skip with
      | S k => splitFrom sep k s'
      | O =>
          if HasPrefix s sep
          then EmptyString :: splitFrom sep (String.length sep - 1) s'
          else match splitFrom sep 0 s' with
               | h :: t => String c h :: t
               | [] => [String c EmptyString]
               end
      end
  end.

Definition Split (s sep : string) : list string := splitFrom sep 0 s.

(** [strings.Replace(s, old, new, -1)] for a one-byte [old] and an empty
    [new]: every occurrence of the byte is removed. *)
Fixpoint RemoveByte (s : string) (old : ascii) : string :=
  match s with
  | EmptyString => EmptyString
  | String c s' =>
      if Ascii.eqb c old then RemoveByte s' old
      else String c (RemoveByte s' old)
  end.

End strings.

(** ** [path/filepath.Ext]

    The suffix of the path beginning at the final dot of its final element;
    empty when that element has no dot.  Go scans from the end of the string
    and stops at the first dot or path separator (the slash, as on Unix).
    [extScan] returns [None] while neither has been met. *)

Module filepath.

Fixpoint extScan (path : string) : option string :=
  match path with
  | EmptyString => None
  | String c rest =>
      match extScan rest with
      | Some e => Some e
      | None =>
          if Ascii.eqb c "."%char then Some path
          else if Ascii.eqb c "/"%char then Some EmptyString
          else None
      end
  end.

Definition Ext (path : string) : string :=
  match extScan path with
  | Some e => e
  | None => EmptyString
  end.

End filepath.

(** ** Go's [regexp], restricted to what [reInfoPlist] needs

    Regular expressions over bytes, matched with Brzozowski derivatives.
    [MatchString] is unanchored, as in Go: it reports whether the string
    contains any match of the expression.  Go matches code points; for a
    pattern made of ASCII literals and the class of everything but the
    slash, matching byte by byte accepts the same strings, since no byte of
    a multi-byte UTF-8 sequence is an ASCII byte. *)

Module regexp.

Inductive Regexp : Type :=
| Void                       (* matches nothing *)
| Eps                        (* the empty string *)
| Lit (c : ascii)            (* one given byte *)
| NotLit (c : ascii)         (* the class [^c] *)
| AnyByte
| Cat (r1 r2 : Regexp)
| Alt (r1 r2 : Regexp)
| Star (r : Regexp).

(** [r+] *)
Definition Plus (r : Regexp) : Regexp := Cat r (Star r).

(** A literal string. *)
Fixpoint Str (s : string) : Regexp :=
  match s with
  | EmptyString => Eps
  | String c s' => Cat (Lit c) (Str s')
  end.

Fixpoint nullable (r : Regexp) : bool :=
  match r with
  | Void | Lit _ | NotLit _ | AnyByte => false
  | Eps | Star _ => true
  | Cat r1 r2 => nullable r1 && nullable r2
  | Alt r1 r2 => nullable r1 || nullable r2
  end.

Fixpoint deriv (a : ascii) (r : Regexp) : Regexp :=
  match r with
  | Void | Eps => Void
  | Lit c => if Ascii.eqb a c then Eps else Void
  | NotLit c => if Ascii.eqb a c then Void else Eps
  | AnyByte => Eps
  | Cat r1 r2 =>
      if nullable r1
      then Alt (Cat (deriv a r1) r2) (deriv a r2)
      else Cat (deriv a r1) r2
  | Alt r1 r2 => Alt (deriv a r1) (deriv a r2)
  | Star r1 => Cat (deriv a r1) (Star r1)
  end.

(** Anchored match of the whole string. *)
Fixpoint matchWhole (r : Regexp) (s : string) : bool :=
  match s with
  | EmptyString => nullable r
  | String a s' => matchWhole (deriv a r) s'
  end.

(** [Regexp.MatchString]: some substring of [s] matches [r]. *)
Definition MatchString (r : Regexp) (s : string) : bool :=
  matchWhole (Cat (Star AnyByte) (Cat r (Star AnyByte))) s.

(** Declarative meaning of an expression, as a set of strings. *)
Inductive Matches : Regexp -> string -> Prop :=
| MEps : Matches Eps EmptyString
| MLit c : Matches (Lit c) (String c EmptyString)
| MNotLit c a : a <> c -> Matches (NotLit c) (String a EmptyString)
| MAny a : Matches AnyByte (String a EmptyString)
| MCat r1 r2 s1 s2 :
    Matches r1 s1 -> Matches r2 s2 -> Matches (Cat r1 r2) (s1 +:+ s2)
| MAltL r1 r2 s : Matches r1 s -> Matches (Alt r1 r2) s
| MAltR r1 r2 s : Matches r2 s -> Matches (Alt r1 r2) s
| MStar0 r : Matches (Star r) EmptyString
| MStarS r s1 s2 :
    Matches r s1 -> Matches (Star r) s2 -> Matches (Star r) (s1 +:+ s2).

End regexp.

(** [var reInfoPlist = regexp.MustCompile(`Payload/[^/]+/Info\.plist`)] *)
Definition reInfoPlist : regexp.Regexp :=
  regexp.Cat (regexp.Str "Payload/")
    (regexp.Cat (regexp.Plus (regexp.NotLit "/"%char))
       (regexp.Str "/Info.plist")).

Definition iosExt : string := ".ipa".
Definition androidExt : string := ".apk".

(** ** Data model *)

(** Go's [error] values.  [errorsNew] is [errors.New] as called in
    [parser.go]; [libError] stands for an error produced by a collaborator
    (os, archive/zip, plist, xml, png, apk), tagged with the package. *)
Inductive error : Type :=
| errorsNew (text : string)
| libError (pkg text : string).

Definition ErrManifestNotFound : error := errorsNew "AndroidManifest.xml is not found".
Definition ErrPlistNotFound : error := errorsNew "not zip file, info.plist is not found".
Definition ErrIconNotFound : error := errorsNew "Icon is not found".
Definition ErrUnknownPlatform : error := errorsNew "unknown platform".

(** A decoded raster image ([image.Image]); its content is never inspected
    by the parser. *)
Record image : Type := mkImage { imgWidth : Z; imgHeight : Z; imgPix : list byte }.

Module zip.

(** The stream returned by [File.Open]: the bytes it delivers and the
    error, if any, that ends the reading. *)
Record ReadCloser : Type := mkReadCloser { rcData : list byte; rcErr : option error }.

(** [zip.File]: an entry of the open container. *)
Record File : Type := mkFile {
  Name : string;
  headerOffset : Z;
  Open : error + ReadCloser
}.

End zip.

(** [ioutil.ReadAll] *)
Definition ReadAll (rc : zip.ReadCloser) : list byte * option error :=
  (zip.rcData rc, zip.rcErr rc).

Record appInfo : Type := mkAppInfo {
  Name : string;
  PackageName : string;
  Version : string;
  Build : string;
  Base64 : string;
  VersionName : string;
  VersionCode : string;
  SDKMinVersion : Z;
  SDKTargetVersion : Z;
  UsesPermissions : list string;
  Activities : list string;
  LanchActivity : string;
  Icon : option image;
  Size : Z;
  IconFileName : string
}.

(** [new(appInfo)]: every field at its zero value. *)
Definition new_appInfo : appInfo :=
  mkAppInfo EmptyString EmptyString EmptyString EmptyString EmptyString
    EmptyString EmptyString 0 0 [] [] EmptyString None 0 EmptyString.

(** Field assignments [info.F = v]. *)
Definition set_Name (v : string) (i : appInfo) : appInfo :=
  mkAppInfo v (PackageName i) (Version i) (Build i) (Base64 i) (VersionName i)
    (VersionCode i) (SDKMinVersion i) (SDKTargetVersion i) (UsesPermissions i)
    (Activities i) (LanchActivity i) (Icon i) (Size i) (IconFileName i).
Definition set_PackageName (v : string) (i : appInfo) : appInfo :=
  mkAppInfo (Name i) v (Version i) (Build i) (Base64 i) (VersionName i)
    (VersionCode i) (SDKMinVersion i) (SDKTargetVersion i) (UsesPermissions i)
    (Activities i) (LanchActivity i) (Icon i) (Size i) (IconFileName i).
Definition set_Version (v : string) (i : appInfo) : appInfo :=
  mkAppInfo (Name i) (PackageName i) v (Build i) (Base64 i) (VersionName i)
    (VersionCode i) (SDKMinVersion i) (SDKTargetVersion i) (UsesPermissions i)
    (Activities i) (LanchActivity i) (Icon i) (Size i) (IconFileName i).
Definition set_Build (v : string) (i : appInfo) : appInfo :=
  mkAppInfo (Name i) (PackageName i) (Version i) v (Base64 i) (VersionName i)
    (VersionCode i) (SDKMinVersion i) (SDKTargetVersion i) (UsesPermissions i)
    (Activities i) (LanchActivity i) (Icon i) (Size i) (IconFileName i).
Definition set_Base64 (v : string) (i : appInfo) : appInfo :=
  mkAppInfo (Name i) (PackageName i) (Version i) (Build i) v (VersionName i)
    (VersionCode i) (SDKMinVersion i) (SDKTargetVersion i) (UsesPermissions i)
    (Activities i) (LanchActivity i) (Icon i) (Size i) (IconFileName i).
Definition set_VersionName (v : string) (i : appInfo) : appInfo :=
  mkAppInfo (Name i) (PackageName i) (Version i) (Build i) (Base64 i) v
    (VersionCode i) (SDKMinVersion i) (SDKTargetVersion i) (UsesPermissions i)
    (Activities i) (LanchActivity i) (Icon i) (Size i) (IconFileName i).
Definition set_VersionCode (v : string) (i : appInfo) : appInfo :=
  mkAppInfo (Name i) (PackageName i) (Version i) (Build i) (Base64 i)
    (VersionName i) v (SDKMinVersion i) (SDKTargetVersion i) (UsesPermissions i)
    (Activities i) (LanchActivity i) (Icon i) (Size i) (IconFileName i).
Definition set_SDKMinVersion (v : Z) (i : appInfo) : appInfo :=
  mkAppInfo (Name i) (PackageName i) (Version i) (Build i) (Base64 i)
    (VersionName i) (VersionCode i) v (SDKTargetVersion i) (UsesPermissions i)
    (Activities i) (LanchActivity i) (Icon i) (Size i) (IconFileName i).
Definition set_SDKTargetVersion (v : Z) (i : appInfo) : appInfo :=
  mkAppInfo (Name i) (PackageName i) (Version i) (Build i) (Base64 i)
    (VersionName i) (VersionCode i) (SDKMinVersion i) v (UsesPermissions i)
    (Activities i) (LanchActivity i) (Icon i) (Size i) (IconFileName i).
Definition set_LanchActivity (v : string) (i : appInfo) : appInfo :=
  mkAppInfo (Name i) (PackageName i) (Version i) (Build i) (Base64 i)
    (VersionName i) (VersionCode i) (SDKMinVersion i) (SDKTargetVersion i)
    (UsesPermissions i) (Activities i) v (Icon i) (Size i) (IconFileName i).
Definition set_Icon (v : option image) (i : appInfo) : appInfo :=
  mkAppInfo (Name i) (PackageName i) (Version i) (Build i) (Base64 i)
    (VersionName i) (VersionCode i) (SDKMinVersion i) (SDKTargetVersion i)
    (UsesPermissions i) (Activities i) (LanchActivity i) v (Size i) (IconFileName i).
Definition set_Size (v : Z) (i : appInfo) : appInfo :=
  mkAppInfo (Name i) (PackageName i) (Version i) (Build i) (Base64 i)
    (VersionName i) (VersionCode i) (SDKMinVersion i) (SDKTargetVersion i)
    (UsesPermissions i) (Activities i) (LanchActivity i) (Icon i) v (IconFileName i).
Definition set_IconFileName (v : string) (i : appInfo) : appInfo :=
  mkAppInfo (Name i) (PackageName i) (Version i) (Build i) (Base64 i)
    (VersionName i) (VersionCode i) (SDKMinVersion i) (SDKTargetVersion i)
    (UsesPermissions i) (Activities i) (LanchActivity i) (Icon i) (Size i) v.

(** The manifest structure filled by [encoding/xml]. *)
Record sdkVersion : Type := mkSdkVersion { Min : Z; Target : Z }.
Record filter : Type := mkFilter { ActionName : string; CategoryName : string }.
Record activity : Type := mkActivity {
  activityName : string;
  Exported : bool;
  Filter : list filter
}.
Record androidManifest : Type := mkAndroidManifest {
  Package : string;
  manifestVersionName : string;
  manifestVersionCode : string;
  SDKVersion : sdkVersion;
  manifestUsesPermissions : list string;
  manifestActivities : list activity
}.

(** A value decoded by the property-list library into [interface{}]. *)
#[local] Set Warnings "-register-all".
Inductive plistValue : Type :=
| PString (s : string)
| PInteger (n : Z)
| PReal (bits : Z)
| PBool (b : bool)
| PData (d : list byte)
| PDate (unix : Z)
| PArray (items : list plistValue)
| PDict (entries : list (string * plistValue)).
#[local] Set Warnings "register-all".

(** [iosPlist].  [CFBundleIcons] has Go type
    [map[string]map[string]interface{}]: a missing key reads as a nil inner
    map ([None] below), a missing key of an inner map reads as a nil
    interface.  A nil outer map is the empty map.  Inner maps built by the
    decoder are never nil. *)
Record iosPlist : Type := mkIosPlist {
  CFBundleName : string;
  CFBundleDisplayName : string;
  CFBundleVersion : string;
  CFBundleShortVersion : string;
  CFBundleIdentifier : string;
  CFBundleExecutable : string;
  CFBundleIcons : gmap string (gmap string plistValue)
}.

(** ** Effects: a trace of observable steps, and panics

    The trace records the calls that reach outside the function: the file
    system, the container entries, the decoders, the external tool and the
    console.  The deferred [Close] calls are not recorded. *)

Inductive event : Type :=
| EvOsOpen (name : string)
| EvStat
| EvZipNewReader
| EvClassify (entry : string)     (* one turn of the classification loop *)
| EvIconScan (entry : string)     (* one turn of the icon-name loop *)
| EvEntryOpen (entry : string)    (* [f.Open()] on a container entry *)
| EvReadAll
| EvNewXMLFile
| EvXmlDecode
| EvPlistDecode
| EvApkOpenFile (name : string)
| EvApkIcon
| EvApkLabel
| EvExec (cmd : string)
| EvPngRevert
| EvPngDecode
| EvPngEncode
| EvPrintln (text : string).

Inductive panic : Type :=
| NilDereference
| BadTypeAssertion
| IndexOutOfRange.

Inductive outcome (A : Type) : Type :=
| Returns (a : A)
| Panics (p : panic).
Arguments Returns {A} a.
Arguments Panics {A} p.

(** A Go computation: the events it performed, then its result or the
    run-time panic that stopped it. *)
Definition Go (A : Type) : Type := (list event * outcome A)%type.

Global Instance Go_ret : MRet Go := λ A a, ([], Returns a).
Global Instance Go_bind : MBind Go := λ A B f m,
  match m with
  | (t, Returns a) => let '(t', r) := f a in (t ++ t', r)
  | (t, Panics p) => (t, Panics p)
  end.

Definition emit (e : event) : Go unit := ([e], Returns tt).
Definition throw {A : Type} (p : panic) : Go A := ([], Panics p).

Definition trace {A : Type} (m : Go A) : list event := fst m.
Definition result {A : Type} (m : Go A) : outcome A := snd m.

(** [*p] on a pointer that may be nil. *)
Definition deref {A : Type} (p : option A) : Go A :=
  match p with
  | Some a => mret a
  | None => throw NilDereference
  end.

(** [s[i]] on a slice. *)
Definition index {A : Type} (s : list A) (i : nat) : Go A :=
  match s !! i with
  | Some a => mret a
  | None => throw IndexOutOfRange
  end.

(** ** Collaborators

    Everything [parser.go] obtains from the operating system and from other
    packages is gathered in a [World]: the file system with its zip
    containers, the binary-XML and property-list decoders, the resource
    table reader, the [aapt] tool and the PNG codecs. *)

Record FileInfo : Type := mkFileInfo { statName : string; statSize : Z }.

(** An opened [*os.File]: what [file.Stat()] and [zip.NewReader(file, size)]
    give on it. *)
Record osFile : Type := mkOsFile {
  Stat : error + FileInfo;
  zipNewReader : error + list zip.File
}.

Module apk.
(** An opened [*apk.Apk]: the icon found for a requested density ([None]
    is a nil image) and the label. The errors of both calls are dropped
    by the parser. *)
Record Apk : Type := mkApk { IconAt : Z -> option image; Label : string }.
End apk.

Record World : Type := mkWorld {
  os_Open : string -> error + osFile;
  androidbinary_NewXMLFile : list byte -> error + list byte;
  xml_Decode : list byte -> error + androidManifest;
  plist_Decode : list byte -> error + iosPlist;
  apk_OpenFile : string -> error + apk.Apk;
  exec_Output : string -> list string -> list byte;
  iospng_PngRevertOptimization : zip.ReadCloser -> list byte * option error;
  png_Decode : list byte -> error + image;
  png_Encode : image -> list byte;
  base64_EncodeToString : list byte -> string
}.

(** The three slots filled by the loop over [reader.File]. *)
Record members : Type := mkMembers {
  xmlFile : option zip.File;
  plistFile : option zip.File;
  iosIconFile : option zip.File
}.

Definition noMembers : members := mkMembers None None None.

(** The body of the classification loop: the [switch] of [NewAppParser]. *)
Definition classifyStep (m : members) (f : zip.File) : members :=
  if String.eqb (zip.Name f) "AndroidManifest.xml" then
    mkMembers (Some f) (plistFile m) (iosIconFile m)
  else if regexp.MatchString reInfoPlist (zip.Name f) then
    mkMembers (xmlFile m) (Some f) (iosIconFile m)
  else if strings.Contains (zip.Name f) "Info.plist" then
    mkMembers (xmlFile m) (Some f) (iosIconFile m)
  else if strings.Contains (zip.Name f) "AppIcon60x60" then
    mkMembers (xmlFile m) (plistFile m) (Some f)
  else m.

(** [for _, f := range reader.File { switch ... }] *)
Fixpoint classifyLoop (files : list zip.File) (m : members) : Go members :=
  match files with
  | [] => mret m
  | f :: rest =>
      _ ← emit (EvClassify (zip.Name f));
      classifyLoop rest (classifyStep m f)
  end.

(** The second loop of the iOS path:
    [if strings.Contains(f.Name, info.IconFileName) { iosIconFile = f; ... }] *)
Fixpoint iconScanLoop (iconFileName : string) (files : list zip.File)
    (cur : option zip.File) : Go (option zip.File) :=
  match files with
  | [] => mret cur
  | f :: rest =>
      _ ← emit (EvIconScan (zip.Name f));
      if strings.Contains (zip.Name f) iconFileName then
        _ ← emit (EvPrintln "We got icon file ");
        iconScanLoop iconFileName rest (Some f)
      else iconScanLoop iconFileName rest cur
  end.

(** The launcher test on one [intent-filter]. *)
Definition isLauncher (fl : filter) : bool :=
  String.eqb (ActionName fl) "android.intent.action.MAIN" &&
  String.eqb (CategoryName fl) "android.intent.category.LAUNCHER".

(** [for _, v := range files { info.IconFileName = v.(string) }] *)
Fixpoint iconFilesLoop (items : list plistValue) (info : appInfo) : Go appInfo :=
  match items with
  | [] => mret info
  | PString s :: rest => iconFilesLoop rest (set_IconFileName s info)
  | _ :: _ => throw BadTypeAssertion
  end.

Section Parser.

Variable W : World.

Definition parseAndroidManifest (xmlFile : option zip.File)
  : Go (option androidManifest * option error) :=
  f ← deref xmlFile;
  _ ← emit (EvEntryOpen (zip.Name f));
  match zip.Open f with
  | inl err => mret (None, Some err)
  | inr rc =>
      _ ← emit EvReadAll;
      match ReadAll rc with
      | (_, Some err) => mret (None, Some err)
      | (buf, None) =>
          _ ← emit EvNewXMLFile;
          match androidbinary_NewXMLFile W buf with
          | inl err => mret (None, Some err)
          | inr xmlContent =>
              _ ← emit EvXmlDecode;
              match xml_Decode W xmlContent with
              | inl err => mret (None, Some err)
              | inr manifest => mret (Some manifest, None)
              end
          end
      end
  end.

Definition parseApkFile (xmlFile : option zip.File)
  : Go (option appInfo * option error) :=
  match xmlFile with
  | None => mret (None, Some ErrManifestNotFound)
  | Some _ =>
      '(manifest, err) ← parseAndroidManifest xmlFile;
      match err with
      | Some e => mret (None, Some e)
      | None =>
          manifest ← deref manifest;
          let info := new_appInfo in
          let info := set_PackageName (Package manifest) info in
          let info := set_Version (manifestVersionName manifest) info in
          let info := set_Build (manifestVersionCode manifest) info in
          let info := set_SDKMinVersion (Min (SDKVersion manifest)) info in
          let info := set_SDKTargetVersion (Target (SDKVersion manifest)) info in
          let info := set_VersionCode (manifestVersionCode manifest) info in
          let info := set_VersionName (manifestVersionName manifest) info in
          let info :=
            fold_left
              (fun info act =>
                 if existsb isLauncher (Filter act)
                 then set_LanchActivity (activityName act) info
                 else info)
              (manifestActivities manifest) info in
          mret (Some info, None)
      end
  end.

Definition parseApkIconAndLabel (name : string)
  : Go (option image * string * option error) :=
  _ ← emit (EvApkOpenFile name);
  match apk_OpenFile W name with
  | inl err => mret (None, EmptyString, Some err)
  | inr pkg =>
      _ ← emit EvApkIcon;
      match apk.IconAt pkg 720 with
      | None => mret (None, EmptyString, Some ErrIconNotFound)
      | Some icon =>
          _ ← emit EvApkLabel;
          let label := apk.Label pkg in
          _ ← emit (EvExec "aapt");
          let resp := exec_Output W "aapt" ["dump"; "badging"; name] in
          label ←
            (if Nat.ltb 0 (List.length resp) then
               let data := strings.Split (string_of_list_byte resp) "launchable-activity" in
               if Nat.ltb 0 (List.length data) then
                 d1 ← index data 1;
                 let temp := strings.Split d1 "label='" in
                 if Nat.ltb 0 (List.length temp) then
                   t1 ← index temp 1;
                   let temp1 := strings.Split t1 "'" in
                   t0 ← index temp1 0;
                   mret (strings.RemoveByte t0 "'"%char)
                 else mret label
               else mret label
             else mret label);
          mret (Some icon, label, None)
      end
  end.

Definition parseIpaFile (plistFile : option zip.File)
  : Go (option appInfo * option error) :=
  match plistFile with
  | None => mret (None, Some ErrPlistNotFound)
  | Some f =>
      _ ← emit (EvEntryOpen (zip.Name f));
      match zip.Open f with
      | inl err => mret (None, Some err)
      | inr rc =>
          _ ← emit EvReadAll;
          match ReadAll rc with
          | (_, Some err) => mret (None, Some err)
          | (buf, None) =>
              _ ← emit EvPlistDecode;
              match plist_Decode W buf with
              | inl err => mret (None, Some err)
              | inr p =>
                  let info := new_appInfo in
                  let info :=
                    if String.eqb (CFBundleDisplayName p) EmptyString
                    then set_Name (CFBundleName p) info
                    else set_Name (CFBundleDisplayName p) info in
                  let info := set_PackageName (CFBundleIdentifier p) info in
                  let info := set_Version (CFBundleShortVersion p) info in
                  let info := set_VersionCode (CFBundleVersion p) info in
                  let info := set_VersionName (CFBundleShortVersion p) info in
                  let info := set_LanchActivity (CFBundleExecutable p) info in
                  info ←
                    match CFBundleIcons p !! "CFBundlePrimaryIcon" with
                    | Some primary =>
                        match primary !! "CFBundleIconFiles" with
                        | Some (PArray items) => iconFilesLoop items info
                        | _ => throw BadTypeAssertion
                        end
                    | None => mret info
                    end;
                  mret (Some info, None)
              end
          end
      end
  end.

Definition parseIpaIcon (iconFile : option zip.File)
  : Go (option image * option error) :=
  match iconFile with
  | None => mret (None, Some ErrIconNotFound)
  | Some f =>
      _ ← emit (EvEntryOpen (zip.Name f));
      match zip.Open f with
      | inl err => mret (None, Some err)
      | inr rc =>
          _ ← emit EvPngRevert;
          let w := fst (iospng_PngRevertOptimization W rc) in
          _ ← emit EvPngDecode;
          match png_Decode W w with
          | inl err => mret (None, Some err)
          | inr img => mret (Some img, None)
          end
      end
  end.

Definition NewAppParser (name : string) : Go (option appInfo * option error) :=
  _ ← emit (EvOsOpen name);
  match os_Open W name with
  | inl err =>
      _ ← emit (EvPrintln " Unable to find file ");
      mret (None, Some err)
  | inr file =>
      _ ← emit EvStat;
      match Stat file with
      | inl err =>
          _ ← emit (EvPrintln " Unable to find file stat");
          mret (None, Some err)
      | inr stat =>
          _ ← emit EvZipNewReader;
          match zipNewReader file with
          | inl err =>
              _ ← emit (EvPrintln " Unable to parse zip file ");
              mret (None, Some err)
          | inr files =>
              m ← classifyLoop files noMembers;
              let ext := filepath.Ext (statName stat) in
              if String.eqb ext androidExt then
                '(info, _) ← parseApkFile (xmlFile m);
                '(icon, label, err) ← parseApkIconAndLabel name;
                '(icon, err) ←
                  match err with
                  | Some _ =>
                      _ ← emit (EvPrintln "Unable to get icon information ");
                      mret (None, None)
                  | None => mret (icon, err)
                  end;
                i ← deref info;
                let i := set_Name label i in
                let i := set_Size (statSize stat) i in
                i ←
                  match icon with
                  | Some img =>
                      _ ← emit EvPngEncode;
                      mret (set_Base64
                              (base64_EncodeToString W (png_Encode W img)) i)
                  | None => mret i
                  end;
                mret (Some i, err)
              else if String.eqb ext iosExt || String.eqb ext ".zip" then
                '(info, err) ← parseIpaFile (plistFile m);
                match err with
                | Some e =>
                    _ ← emit (EvPrintln "Error in getting iOS app details ");
                    mret (None, Some e)
                | None =>
                    i ← deref info;
                    iosIconFile ←
                      iconScanLoop (IconFileName i) files (iosIconFile m);
                    '(icon, err) ← parseIpaIcon iosIconFile;
                    match err with
                    | Some _ =>
                        _ ← emit (EvPrintln "Error in getting iOS app icon ");
                        mret (Some i, None)
                    | None =>
                        let i := set_Icon icon i in
                        _ ← emit EvPngEncode;
                        img ← deref icon;
                        let i :=
                          set_Base64
                            (base64_EncodeToString W (png_Encode W img)) i in
                        let i := set_Size (statSize stat) i in
                        mret (Some i, None)
                    end
                end
              else mret (None, Some ErrUnknownPlatform)
          end
      end
  end.

End Parser.

(** ** The older revision of the parser

    The same package at an earlier revision: the platform is an argument,
    the record is [AppInfo] with five fields, the classification loop has no
    substring case for [Info.plist], and the iOS icon is returned as the raw
    bytes of its entry. *)

Module Rev0.

Record AppInfo : Type := mkAppInfo {
  Name : string;
  BundleId : string;
  Version : string;
  Build : string;
  Icon : list byte
}.

Record iosPlist : Type := mkIosPlist {
  CFBundleDisplayName : string;
  CFBundleVersion : string;
  CFBundleShortVersion : string;
  CFBundleIdentifier : string
}.

Definition classifyStep (m : members) (f : zip.File) : members :=
  if String.eqb (zip.Name f) "AndroidManifest.xml" then
    mkMembers (Some f) (plistFile m) (iosIconFile m)
  else if regexp.MatchString reInfoPlist (zip.Name f) then
    mkMembers (xmlFile m) (Some f) (iosIconFile m)
  else if strings.Contains (zip.Name f) "AppIcon60x60" then
    mkMembers (xmlFile m) (plistFile m) (Some f)
  else m.

Section Parser.

(** The property-list decoder, filling this revision's [iosPlist]. *)
Variable plist_Decode : list byte -> error + iosPlist.

Definition parseIpaFile (plistFile : option zip.File)
  : Go (option AppInfo * option error) :=
  match plistFile with
  | None => mret (None, Some (errorsNew "info.plist is not found"))
  | Some f =>
      _ ← emit (EvEntryOpen (zip.Name f));
      match zip.Open f with
      | inl err => mret (None, Some err)
      | inr rc =>
          _ ← emit EvReadAll;
          match ReadAll rc with
          | (_, Some err) => mret (None, Some err)
          | (buf, None) =>
              _ ← emit EvPlistDecode;
              match plist_Decode buf with
              | inl err => mret (None, Some err)
              | inr info =>
                  mret (Some (mkAppInfo (CFBundleDisplayName info)
                                (CFBundleIdentifier info)
                                (CFBundleShortVersion info)
                                (CFBundleVersion info) []), None)
              end
          end
      end
  end.

End Parser.

Definition parseIpaIcon (iconFile : option zip.File)
  : Go (list byte * option error) :=
  match iconFile with
  | None => mret ([], Some ErrIconNotFound)
  | Some f =>
      _ ← emit (EvEntryOpen (zip.Name f));
      match zip.Open f with
      | inl err => mret ([], Some err)
      | inr rc => _ ← emit EvReadAll; mret (ReadAll rc)
      end
  end.

Record androidManifest : Type := mkAndroidManifest {
  Package : string;
  VersionName : string;
  VersionCode : string
}.

(** [PlatformTypeAndroid] and [PlatformTypeIOS] ([1 + iota]). *)
Definition PlatformTypeAndroid : Z := 1.
Definition PlatformTypeIOS : Z := 2.

Section Dispatcher.

(** The collaborators of this revision.  The file system, the binary-XML
    reader and the package reader are those of [World]; the XML and
    property-list decoders fill this revision's structures, [pkg.Icon] is
    called with a nil configuration, and the error of [png.Encode] is
    looked at. *)
Variable W : World.
Variable xml_Decode : list byte -> error + androidManifest.
Variable plist_Decode : list byte -> error + iosPlist.
Variable apk_IconDefault : apk.Apk -> option image.
Variable png_Encode : image -> error + list byte.

Definition parseAndroidManifest (xmlFile : option zip.File)
  : Go (option androidManifest * option error) :=
  f ← deref xmlFile;
  _ ← emit (EvEntryOpen (zip.Name f));
  match zip.Open f with
  | inl err => mret (None, Some err)
  | inr rc =>
      _ ← emit EvReadAll;
      match ReadAll rc with
      | (_, Some err) => mret (None, Some err)
      | (buf, None) =>
          _ ← emit EvNewXMLFile;
          match androidbinary_NewXMLFile W buf with
          | inl err => mret (None, Some err)
          | inr xmlContent =>
              _ ← emit EvXmlDecode;
              match xml_Decode xmlContent with
              | inl err => mret (None, Some err)
              | inr manifest => mret (Some manifest, None)
              end
          end
      end
  end.

Definition parseApkFile (xmlFile : option zip.File)
  : Go (option AppInfo * option error) :=
  match xmlFile with
  | None => mret (None, Some (errorsNew "AndroidManifest.xml is not found"))
  | Some _ =>
      '(manifest, err) ← parseAndroidManifest xmlFile;
      match err with
      | Some e => mret (None, Some e)
      | None =>
          manifest ← deref manifest;
          mret (Some (mkAppInfo EmptyString (Package manifest)
                        (VersionName manifest) (VersionCode manifest) []), None)
      end
  end.

Definition parseApkIconAndLabel (name : string)
  : Go (list byte * string * option error) :=
  _ ← emit (EvApkOpenFile name);
  match apk_OpenFile W name with
  | inl err => mret ([], EmptyString, Some err)
  | inr pkg =>
      _ ← emit EvApkIcon;
      match apk_IconDefault pkg with
      | None => mret ([], EmptyString, Some ErrIconNotFound)
      | Some icon =>
          _ ← emit EvApkLabel;
          let label := apk.Label pkg in
          _ ← emit EvPngEncode;
          match png_Encode icon with
          | inl err => mret ([], EmptyString, Some err)
          | inr buf => mret (buf, label, None)
          end
      end
  end.

Fixpoint classifyLoop (files : list zip.File) (m : members) : Go members :=
  match files with
  | [] => mret m
  | f :: rest =>
      _ ← emit (EvClassify (zip.Name f));
      classifyLoop rest (classifyStep m f)
  end.

Definition NewAppParser (name : string) (platformType : Z)
  : Go (option AppInfo * option error) :=
  _ ← emit (EvOsOpen name);
  match os_Open W name with
  | inl err => mret (None, Some err)
  | inr file =>
      _ ← emit EvStat;
      match Stat file with
      | inl err => mret (None, Some err)
      | inr stat =>
          _ ← emit EvZipNewReader;
          match zipNewReader file with
          | inl err => mret (None, Some err)
          | inr files =>
              m ← classifyLoop files noMembers;
              if Z.eqb platformType PlatformTypeAndroid then
                '(appInfo, _) ← parseApkFile (xmlFile m);
                '(icon, label, err) ← parseApkIconAndLabel name;
                a ← deref appInfo;
                let a := mkAppInfo label (BundleId a) (Version a) (Build a) (Icon a) in
                let a := mkAppInfo (Name a) (BundleId a) (Version a) (Build a) icon in
                mret (Some a, err)
              else if Z.eqb platformType PlatformTypeIOS then
                '(appInfo, _) ← parseIpaFile plist_Decode (plistFile m);
                '(icon, err) ← parseIpaIcon (iosIconFile m);
                a ← deref appInfo;
                let a := mkAppInfo (Name a) (BundleId a) (Version a) (Build a) icon in
                mret (Some a, err)
              else mret (None, Some ErrUnknownPlatform)
          end
      end
  end.

End Dispatcher.

End Rev0.

(** ** Derived notions used in the statements *)

(** The slot an entry name is assigned to by the [switch] of the
    classification loop, if any. *)
Inductive slot : Type := SlotManifest | SlotPlist | SlotIcon.

Definition slot_eqb (a b : slot) : bool :=
  match a, b with
  | SlotManifest, SlotManifest | SlotPlist, SlotPlist | SlotIcon, SlotIcon => true
  | _, _ => false
  end.

Definition slotOf (name : string) : option slot :=
  if String.eqb name "AndroidManifest.xml" then Some SlotManifest
  else if regexp.MatchString reInfoPlist name then Some SlotPlist
  else if strings.Contains name "Info.plist" then Some SlotPlist
  else if strings.Contains name "AppIcon60x60" then Some SlotIcon
  else None.

Definition qualifies (s : slot) (f : zip.File) : bool :=
  match slotOf (zip.Name f) with
  | Some s' => slot_eqb s s'
  | None => false
  end.

Definition getSlot (s : slot) (m : members) : option zip.File :=
  match s with
  | SlotManifest => xmlFile m
  | SlotPlist => plistFile m
  | SlotIcon => iosIconFile m
  end.

(** The outcome of the whole classification pass. *)
Definition classified (files : list zip.File) : members :=
  fold_left classifyStep files noMembers.

(** Events that touch a container entry, and events that run a decoder. *)
Definition isEntryEvent (e : event) : bool :=
  match e with
  | EvClassify _ | EvIconScan _ | EvEntryOpen _ | EvReadAll => true
  | _ => false
  end.

Definition isDecodeEvent (e : event) : bool :=
  match e with
  | EvNewXMLFile | EvXmlDecode | EvPlistDecode | EvApkOpenFile _ | EvApkIcon
  | EvApkLabel | EvExec _ | EvPngRevert | EvPngDecode | EvPngEncode => true
  | _ => false
  end.

(** ** Sample inputs *)

Definition bytesOf (s : string) : list byte := list_byte_of_string s.

(** A readable container entry. *)
Definition entry (name : string) (offset : Z) (content : string) : zip.File :=
  zip.mkFile name offset (inr (zip.mkReadCloser (bytesOf content) None)).

(** An archive on disk that opens as a zip container. *)
Definition archive (base : string) (size : Z) (files : list zip.File) : osFile :=
  mkOsFile (inr (mkFileInfo base size)) (inr files).

Definition sampleImage : image := mkImage 1 1 [x00; x00; x00; xff].

(** A world holding one file: collaborators decode whichever bytes they
    are given to the supplied values. *)
Definition worldWith (path : string) (file : osFile)
    (manifest : error + androidManifest) (plist : error + iosPlist)
    (pkg : error + apk.Apk) (aapt : string) : World :=
  mkWorld
    (fun name => if String.eqb name path then inr file
                 else inl (libError "os" "no such file or directory"))
    (fun buf => inr buf)
    (fun _ => manifest)
    (fun _ => plist)
    (fun _ => pkg)
    (fun _ _ => bytesOf aapt)
    (fun rc => (zip.rcData rc, None))
    (fun buf => match buf with
                | [] => inl (libError "png" "unexpected EOF")
                | _ => inr sampleImage
                end)
    (fun _ => bytesOf "PNG")
    (fun _ => "UE5H").

Definition helloManifest : androidManifest :=
  mkAndroidManifest "com.example.helloworld" "1.0" "1" (mkSdkVersion 14 19) []
    [mkActivity "com.example.helloworld.MainActivity" true
       [mkFilter "android.intent.action.MAIN" "android.intent.category.LAUNCHER"]].

Definition helloPlist (icons : gmap string (gmap string plistValue)) : iosPlist :=
  mkIosPlist "HelloWorld" EmptyString "1.0" "1.0" "com.kthcorp.helloworld"
    "HelloWorld" icons.

Definition helloApk : apk.Apk := apk.mkApk (fun _ => Some sampleImage) "HelloWorld".

(** The names of the entries opened during a run, in order. *)
Fixpoint openedEntries (t : list event) : list string :=
  match t with
  | [] => []
  | EvEntryOpen n :: rest => n :: openedEntries rest
  | _ :: rest => openedEntries rest
  end.

(** The record as it stands after the plain field assignments of
    [parseIpaFile], before the icon list is looked at. *)
Definition ipaPlainFields (p : iosPlist) : appInfo :=
  set_LanchActivity (CFBundleExecutable p)
    (set_VersionName (CFBundleShortVersion p)
       (set_VersionCode (CFBundleVersion p)
          (set_Version (CFBundleShortVersion p)
             (set_PackageName (CFBundleIdentifier p)
                (if String.eqb (CFBundleDisplayName p) EmptyString
                 then set_Name (CFBundleName p) new_appInfo
                 else set_Name (CFBundleDisplayName p) new_appInfo))))).

(** The navigation of [CFBundleIcons] in [parseIpaFile]. *)
Definition ipaIconNavigation (p : iosPlist) (info : appInfo) : Go appInfo :=
  match CFBundleIcons p !! "CFBundlePrimaryIcon" with
  | Some primary =>
      match primary !! "CFBundleIconFiles" with
      | Some (PArray items) => iconFilesLoop items info
      | _ => throw BadTypeAssertion
      end
  | None => mret info
  end.

(** *** Inputs of the individual statements *)

(** A container in which every slot has two qualifying entries. *)
Definition firstManifest : zip.File := entry "AndroidManifest.xml" 0 "first".
Definition firstPlist : zip.File := entry "Payload/A.app/Info.plist" 64 "first".
Definition firstIcon : zip.File := entry "Payload/A.app/AppIcon60x60@2x.png" 128 "first".
Definition secondManifest : zip.File := entry "AndroidManifest.xml" 192 "second".
Definition secondPlist : zip.File := entry "Payload/B.app/Info.plist" 256 "second".
Definition secondIcon : zip.File := entry "Payload/B.app/AppIcon60x60@3x.png" 320 "second".

Definition twoOfEach : list zip.File :=
  [firstManifest; firstPlist; firstIcon; secondManifest; secondPlist; secondIcon].

(** A word-processor document: a valid zip container with a foreign
    extension. *)
Definition docxFiles : list zip.File :=
  [entry "[Content_Types].xml" 0 "<Types/>"; entry "word/document.xml" 96 "<w:document/>"].

Definition docxWorld : World :=
  worldWith "report.docx" (archive "report.docx" 2048 docxFiles)
    (inl (libError "androidbinary" "invalid chunk"))
    (inl (libError "plist" "invalid property list"))
    (inl (libError "apk" "no resources")) EmptyString.

(** A file with a foreign extension that is not a zip container at all. *)
Definition notesWorld : World :=
  worldWith "notes.docx"
    (mkOsFile (inr (mkFileInfo "notes.docx" 12))
       (inl (libError "zip" "zip: not a valid zip file")))
    (inl (libError "androidbinary" "invalid chunk"))
    (inl (libError "plist" "invalid property list"))
    (inl (libError "apk" "no resources")) EmptyString.

(** An entry whose stream cannot be opened (its compression method is not
    supported), in a world whose PNG decoder accepts any bytes. *)
Definition lzmaIcon : zip.File :=
  zip.mkFile "Payload/App.app/AppIcon60x60@2x.png" 512
    (inl (libError "zip" "zip: unsupported compression algorithm")).

Definition lenientPngWorld : World :=
  mkWorld (fun _ => inl (libError "os" "no such file or directory"))
    (fun buf => inr buf)
    (fun _ => inl (libError "xml" "EOF"))
    (fun _ => inl (libError "plist" "invalid property list"))
    (fun _ => inl (libError "apk" "no resources"))
    (fun _ _ => [])
    (fun rc => (zip.rcData rc, None))
    (fun _ => inr sampleImage)
    (fun _ => bytesOf "PNG")
    (fun _ => "UE5H").

(** A world whose revert-optimization step reports an error and writes
    nothing usable. *)
Definition brokenRevertWorld : World :=
  mkWorld (fun _ => inl (libError "os" "no such file or directory"))
    (fun buf => inr buf)
    (fun _ => inl (libError "xml" "EOF"))
    (fun _ => inl (libError "plist" "invalid property list"))
    (fun _ => inl (libError "apk" "no resources"))
    (fun _ _ => [])
    (fun rc => ([], Some (libError "iospng" "not a PNG file")))
    (fun buf => match buf with
                | [] => inl (libError "png" "unexpected EOF")
                | _ => inr sampleImage
                end)
    (fun _ => bytesOf "PNG")
    (fun _ => "UE5H").

(** The archive of the iOS scenario. *)
Definition helloInfoPlist : zip.File := entry "Payload/App.app/Info.plist" 0 "bplist00".
Definition helloIcon : zip.File := entry "Payload/App.app/AppIcon60x60@2x.png" 64 "PNG".
Definition helloPkgInfo : zip.File := entry "Payload/App.app/PkgInfo" 128 "APPL".

Definition helloIpaWorld (icons : gmap string (gmap string plistValue)) : World :=
  worldWith "app.ipa"
    (archive "app.ipa" 4096 [helloInfoPlist; helloIcon; helloPkgInfo])
    (inl (libError "androidbinary" "invalid chunk"))
    (inr (helloPlist icons))
    (inl (libError "apk" "no resources")) EmptyString.

Definition twoIconFiles : gmap string (gmap string plistValue) :=
  {[ "CFBundlePrimaryIcon" :=
       {[ "CFBundleIconFiles" := PArray [PString "AppIcon29x29"; PString "AppIcon60x60"] ]} ]}.

(** Property lists on which the navigation of [CFBundleIcons] goes wrong
    below [CFBundlePrimaryIcon]. *)
Definition iconNameOnly : gmap string (gmap string plistValue) :=
  {[ "CFBundlePrimaryIcon" := {[ "CFBundleIconName" := PString "AppIcon" ]} ]}.
Definition iconFilesNotAList : gmap string (gmap string plistValue) :=
  {[ "CFBundlePrimaryIcon" := {[ "CFBundleIconFiles" := PString "AppIcon60x60" ]} ]}.
Definition iconFilesNotStrings : gmap string (gmap string plistValue) :=
  {[ "CFBundlePrimaryIcon" :=
       {[ "CFBundleIconFiles" := PArray [PString "AppIcon60x60"; PInteger 60] ]} ]}.

Definition helloManifestEntry : zip.File := entry "AndroidManifest.xml" 0 "binary-xml".
Definition helloDex : zip.File := entry "classes.dex" 2048 "dex".

Definition helloApkWorld (files : list zip.File)
    (manifest : error + androidManifest) (aapt : string) : World :=
  worldWith "app.apk" (archive "app.apk" 8192 files) manifest
    (inl (libError "plist" "invalid property list")) (inr helloApk) aapt.

(** An [.apk] without a manifest, and one whose manifest does not decode. *)
Definition noManifestWorld : World :=
  helloApkWorld [helloDex] (inr helloManifest) EmptyString.
Definition badManifestWorld : World :=
  helloApkWorld [helloManifestEntry; helloDex]
    (inl (libError "xml" "unexpected EOF")) EmptyString.

(** A report of the badging tool for a package without launcher activity,
    and one whose launcher line carries no label. *)
Definition badgingWithoutLauncher : string :=
  "package: name='com.example.helloworld' versionCode='1' versionName='1.0'".
Definition badgingWithoutLabel : string :=
  "package: name='com.example.helloworld' launchable-activity: name='Main'".
Definition badgingComplete : string :=
  "package: name='com.example.helloworld' launchable-activity: name='Main'  label='Hello World' icon=''".

(** *** Notions used by the further properties *)

(** [strings.Join(pieces, sep)], the inverse of [strings.Split]. *)
Fixpoint joinWith (sep : string) (pieces : list string) : string :=
  match pieces with
  | [] => EmptyString
  | [p] => p
  | p :: rest => p +:+ (sep +:+ joinWith sep rest)
  end.

(** [s[n:]], clipped at the end of the string. *)
Fixpoint dropBytes (n : nat) (s : string) : string :=
  match n, s with
  | O, _ => s
  | S _, EmptyString => EmptyString
  | S k, String _ s' => dropBytes k s'
  end.

(** The strings of a decoded sequence when every element is a string. *)
Fixpoint allStrings (items : list plistValue) : option (list string) :=
  match items with
  | [] => Some []
  | PString s :: rest =>
      match allStrings rest with
      | Some names => Some (s :: names)
      | None => None
      end
  | _ :: _ => None
  end.

(** The label override of [parseApkIconAndLabel]: the block guarded by
    [len(resp) > 0], applied to the report [resp] of the badging tool and
    to the label read from the resource table. *)
Definition labelFromBadging (resp : list byte) (label : string) : Go string :=
  if Nat.ltb 0 (List.length resp) then
    let data := strings.Split (string_of_list_byte resp) "launchable-activity" in
    if Nat.ltb 0 (List.length data) then
      d1 ← index data 1;
      let temp := strings.Split d1 "label='" in
      if Nat.ltb 0 (List.length temp) then
        t1 ← index temp 1;
        let temp1 := strings.Split t1 "'" in
        t0 ← index temp1 0;
        mret (strings.RemoveByte t0 "'"%char)
      else mret label
    else mret label
  else mret label.

(** The three steps that open the container: [os.Open], [file.Stat] and
    [zip.NewReader]. *)
Definition openContainer (W : World) (name : string)
  : error + (FileInfo * list zip.File) :=
  match os_Open W name with
  | inl err => inl err
  | inr file =>
      match Stat file with
      | inl err => inl err
      | inr stat =>
          match zipNewReader file with
          | inl err => inl err
          | inr files => inr (stat, files)
          end
      end
  end.

(** The entry the iOS path hands to [parseIpaIcon]: the last entry whose
    name contains the icon file name, else the candidate of the
    classification pass. *)
Definition selectedIcon (iconFileName : string) (files : list zip.File) : option zip.File :=
  match List.find (fun f => strings.Contains (zip.Name f) iconFileName) (List.rev files) with
  | Some f => Some f
  | None => iosIconFile (classified files)
  end.

(** Events of the Android decode path and of the iOS decode path. *)
Definition isAndroidEvent (e : event) : bool :=
  match e with
  | EvNewXMLFile | EvXmlDecode | EvApkOpenFile _ | EvApkIcon | EvApkLabel
  | EvExec _ => true
  | _ => false
  end.

Definition isIosEvent (e : event) : bool :=
  match e with
  | EvPlistDecode | EvIconScan _ | EvPngRevert | EvPngDecode => true
  | _ => false
  end.

(** The launcher test on one activity. *)
Definition hasLauncherFilter (a : activity) : bool := existsb isLauncher (Filter a).

(** The outcome of the classification loop of the older revision. *)
Definition classified0 (files : list zip.File) : members :=
  fold_left Rev0.classifyStep files noMembers.

(** A manifest declaring two launcher activities around a plain one. *)
Definition twoLauncherManifest : androidManifest :=
  mkAndroidManifest "com.example.two" "2.0" "7" (mkSdkVersion 21 33) []
    [mkActivity "com.example.two.First" true
       [mkFilter "android.intent.action.VIEW" "android.intent.category.DEFAULT";
        mkFilter "android.intent.action.MAIN" "android.intent.category.LAUNCHER"];
     mkActivity "com.example.two.Settings" false [];
     mkActivity "com.example.two.Second" true
       [mkFilter "android.intent.action.MAIN" "android.intent.category.LAUNCHER"];
     mkActivity "com.example.two.About" false
       [mkFilter "android.intent.action.MAIN" "android.intent.category.INFO"]].

(** The bytes of a container entry decoded as a property list: [f.Open],
    [ioutil.ReadAll] and the decoder, the first failure winning. *)
Definition readPlist (W : World) (f : zip.File) : error + iosPlist :=
  match zip.Open f with
  | inl err => inl err
  | inr rc =>
      match zip.rcErr rc with
      | Some err => inl err
      | None => plist_Decode W (zip.rcData rc)
      end
  end.

(** An entry whose stream breaks off while it is read. *)
Definition truncatedPlist : zip.File :=
  zip.mkFile "Payload/App.app/Info.plist" 0
    (inr (zip.mkReadCloser (bytesOf "bpl") (Some (libError "io" "unexpected EOF")))).

(** An iOS archive whose property list names an icon that no entry
    carries, and the complete archive of the scenario. *)
Definition iconlessIpaWorld : World :=
  worldWith "app.ipa" (archive "app.ipa" 4096 [helloInfoPlist; helloPkgInfo])
    (inl (libError "androidbinary" "invalid chunk"))
    (inr (helloPlist twoIconFiles))
    (inl (libError "apk" "no resources")) EmptyString.

(** An Android archive whose resource table cannot be opened. *)
Definition noResourcesApkWorld : World :=
  worldWith "app.apk" (archive "app.apk" 8192 [helloManifestEntry; helloDex])
    (inr helloManifest) (inl (libError "plist" "invalid property list"))
    (inl (libError "apk" "no resources")) EmptyString.

Definition completeApkWorld : World :=
  helloApkWorld [helloManifestEntry; helloDex] (inr helloManifest) badgingComplete.

(** No event of the trace satisfies [P]. *)
Definition quiet {A : Type} (P : event -> bool) (m : Go A) : Prop :=
  existsb P (trace m) = false.

(** Collaborators of the older revision for the iOS scenario. *)
Definition helloPlist0 : Rev0.iosPlist :=
  Rev0.mkIosPlist "Hello" "1.0" "1.0" "com.kthcorp.helloworld".

Definition rev0World (files : list zip.File) : World :=
  worldWith "app.ipa" (archive "app.ipa" 4096 files)
    (inl (libError "androidbinary" "invalid chunk"))
    (inr (helloPlist ∅))
    (inl (libError "apk" "no resources")) EmptyString.

(** [NewAppParser] of the older revision with sample decoders. *)
Definition rev0Parser (files : list zip.File) (platformType : Z)
  : Go (option Rev0.AppInfo * option error) :=
  Rev0.NewAppParser (rev0World files)
    (fun _ => inl (libError "xml" "unexpected EOF"))
    (fun _ => inr helloPlist0)
    (fun _ => None)
    (fun _ => inl (libError "png" "no image"))
    "app.ipa" platformType.

(** * Properties *)

(** ** Sanity checks of the library functions *)

Example Contains_ex1 : strings.Contains "Payload/A.app/Info.plist" "Info.plist" = true.
Proof. reflexivity. Qed.
Example Contains_ex2 : strings.Contains "abc" EmptyString = true.
Proof. reflexivity. Qed.
Example Split_ex1 : strings.Split "a,b,,c," "," = ["a"; "b"; EmptyString; "c"; EmptyString].
Proof. reflexivity. Qed.
Example Split_ex2 : strings.Split "xlabel='Hi' y" "label='" = ["x"; "Hi' y"].
Proof. reflexivity. Qed.
Example Split_ex3 : strings.Split "nothing here" "label='" = ["nothing here"].
Proof. reflexivity. Qed.
Example Ext_ex1 : filepath.Ext "app.apk" = ".apk".
Proof. reflexivity. Qed.
Example Ext_ex2 : filepath.Ext "a.b/noext" = EmptyString.
Proof. reflexivity. Qed.
Example Ext_ex3 : filepath.Ext "report.final.docx" = ".docx".
Proof. reflexivity. Qed.
Example reInfoPlist_ex1 : regexp.MatchString reInfoPlist "Payload/App.app/Info.plist" = true.
Proof. vm_compute. reflexivity. Qed.
Example reInfoPlist_ex2 : regexp.MatchString reInfoPlist "Payload/a/b/Info.plist" = false.
Proof. vm_compute. reflexivity. Qed.
Example reInfoPlist_ex3 : regexp.MatchString reInfoPlist "x/Payload/a/Info.plist.bak" = true.
Proof. vm_compute. reflexivity. Qed.
Example reInfoPlist_ex4 : regexp.MatchString reInfoPlist "Payload//Info.plist" = false.
Proof. vm_compute. reflexivity. Qed.


(** ** Strings *)

#[local] Arguments String.append !_ _ : simpl nomatch.

Lemma append_assoc_str (a b c : string) : (a +:+ b) +:+ c = a +:+ (b +:+ c).
Proof. induction a as [|x a IH]; simpl; [reflexivity | f_equal; exact IH]. Qed.

Lemma append_nil_inv (a b : string) :
  a +:+ b = EmptyString -> a = EmptyString /\ b = EmptyString.
Proof. destruct a; simpl; [auto | discriminate]. Qed.

Lemma HasPrefix_append (p rest : string) : strings.HasPrefix (p +:+ rest) p = true.
Proof.
  unfold strings.HasPrefix.
  induction p as [|c p IH]; simpl; [destruct rest; reflexivity |].
  destruct (ascii_dec c c); [exact IH | contradiction].
Qed.

Lemma Contains_here (sub rest : string) : strings.Contains (sub +:+ rest) sub = true.
Proof.
  destruct sub as [|c sub].
  - destruct rest; reflexivity.
  - change (strings.HasPrefix (String c sub +:+ rest) (String c sub)
            || strings.Contains (sub +:+ rest) (String c sub) = true).
    now rewrite HasPrefix_append.
Qed.

Lemma Contains_later (before s sub : string) :
  strings.Contains s sub = true -> strings.Contains (before +:+ s) sub = true.
Proof.
  intros H. induction before as [|c before IH]; simpl; [exact H |].
  rewrite IH. apply orb_true_r.
Qed.

Lemma Contains_infix (before sub rest : string) :
  strings.Contains (before +:+ (sub +:+ rest)) sub = true.
Proof. apply Contains_later, Contains_here. Qed.

(** ** The derivative matcher agrees with the meaning of expressions *)

Module regexp_facts.
Import regexp.

Lemma nullable_sound r : nullable r = true -> Matches r EmptyString.
Proof.
  induction r; simpl; intros H; try discriminate.
  - constructor.
  - apply andb_true_iff in H as [H1 H2].
    change EmptyString with (EmptyString +:+ EmptyString). constructor; auto.
  - apply orb_true_iff in H as [H|H]; [apply MAltL | apply MAltR]; auto.
  - constructor.
Qed.

Lemma nullable_complete r : Matches r EmptyString -> nullable r = true.
Proof.
  intros H. remember EmptyString as s eqn:Es.
  induction H; simpl; try discriminate; try reflexivity.
  - apply append_nil_inv in Es as [-> ->].
    rewrite IHMatches1, IHMatches2; auto.
  - rewrite IHMatches; auto.
  - rewrite IHMatches; auto. apply orb_true_r.
Qed.

Lemma deriv_sound a r : forall s, Matches (deriv a r) s -> Matches r (String a s).
Proof.
  induction r; simpl; intros s H.
  - inversion H.
  - inversion H.
  - destruct (Ascii.eqb a c) eqn:E; inversion H; subst.
    apply Ascii.eqb_eq in E as ->. constructor.
  - destruct (Ascii.eqb a c) eqn:E; inversion H; subst.
    constructor. now apply Ascii.eqb_neq.
  - inversion H; subst. constructor.
  - assert (Hcat : forall t, Matches (Cat (deriv a r1) r2) t ->
                             Matches (Cat r1 r2) (String a t)).
    { intros t Ht. inversion Ht; subst.
      change (String a (s1 +:+ s2)) with (String a s1 +:+ s2).
      constructor; auto. }
    destruct (nullable r1) eqn:N.
    + inversion H; subst; [now apply Hcat |].
      change (String a s) with (EmptyString +:+ String a s).
      constructor; [now apply nullable_sound | auto].
    + now apply Hcat.
  - inversion H; subst; [apply MAltL | apply MAltR]; auto.
  - inversion H; subst.
    change (String a (s1 +:+ s2)) with (String a s1 +:+ s2).
    apply MStarS; auto.
Qed.

Lemma deriv_complete a r s' :
  Matches r s' -> forall s, s' = String a s -> Matches (deriv a r) s.
Proof.
  induction 1; intros t Et; simpl; try discriminate.
  - injection Et as -> <-. rewrite Ascii.eqb_refl. constructor.
  - injection Et as -> <-.
    destruct (Ascii.eqb a c) eqn:E; [|constructor].
    apply Ascii.eqb_eq in E. contradiction.
  - injection Et as _ <-. constructor.
  - destruct s1 as [|b s1]; simpl in Et.
    + subst s2. rewrite (nullable_complete _ H). apply MAltR; auto.
    + injection Et as -> <-.
      assert (Matches (Cat (deriv a r1) r2) (s1 +:+ s2))
        by (constructor; auto).
      destruct (nullable r1); [apply MAltL |]; assumption.
  - apply MAltL; auto.
  - apply MAltR; auto.
  - destruct s1 as [|b s1]; simpl in Et.
    + apply (IHMatches2 t Et).
    + injection Et as -> <-. constructor; auto.
Qed.

(** [matchWhole] decides [Matches]. *)
Lemma matchWhole_spec r s : matchWhole r s = true <-> Matches r s.
Proof.
  revert r. induction s as [|a s IH]; intros r; simpl.
  - split; [apply nullable_sound | apply nullable_complete].
  - rewrite IH. split; [apply deriv_sound |].
    intros H. now apply (deriv_complete a r _ H).
Qed.

Lemma Matches_Str lit s : Matches (Str lit) s <-> s = lit.
Proof.
  revert s. induction lit as [|c lit IH]; intros s; simpl.
  - split; [now inversion 1 | intros ->; constructor].
  - split.
    + inversion 1; subst.
      match goal with
      | [ Hc : Matches (Lit c) _, Hl : Matches (Str lit) _ |- _ ] =>
          inversion Hc; subst; apply IH in Hl; subst; reflexivity
      end.
    + intros ->. change (String c lit) with (String c EmptyString +:+ lit).
      constructor; [constructor | now apply IH].
Qed.

Lemma Matches_any s : Matches (Star AnyByte) s.
Proof.
  induction s as [|a s IH]; [constructor |].
  change (String a s) with (String a EmptyString +:+ s).
  apply MStarS; [constructor | exact IH].
Qed.

(** [MatchString] holds exactly of the strings with a matching substring. *)
Lemma MatchString_spec r s :
  MatchString r s = true <->
  exists before mid rest, s = before +:+ (mid +:+ rest) /\ Matches r mid.
Proof.
  unfold MatchString. rewrite matchWhole_spec. split.
  - inversion 1; subst.
    match goal with
    | [ Hc : Matches (Cat r _) _ |- _ ] => inversion Hc; subst
    end.
    eauto.
  - intros (before & mid & rest & -> & H).
    constructor; [apply Matches_any |].
    constructor; [exact H | apply Matches_any].
Qed.

End regexp_facts.

(** Every name containing a match of [reInfoPlist] contains [Info.plist]:
    the second case of the classification [switch] is subsumed by the third. *)
Lemma reInfoPlist_Contains (name : string) :
  regexp.MatchString reInfoPlist name = true ->
  strings.Contains name "Info.plist" = true.
Proof.
  intros H. apply regexp_facts.MatchString_spec in H
    as (before & mid & rest & -> & H).
  unfold reInfoPlist in H. inversion H as [| | | | ? ? p q Hp Hq | | | |]; subst.
  inversion Hq as [| | | | ? ? seg tail Hseg Htail | | | |]; subst.
  apply (regexp_facts.Matches_Str "/Info.plist") in Htail. subst tail.
  change "/Info.plist" with ("/" +:+ "Info.plist").
  rewrite <- !append_assoc_str.
  rewrite (append_assoc_str _ "Info.plist" rest).
  apply Contains_infix.
Qed.

(** The pattern is not anchored: a match may start and end anywhere. *)
Lemma reInfoPlist_unanchored (before seg rest : string) :
  seg <> EmptyString -> strings.Contains seg "/" = false ->
  regexp.MatchString reInfoPlist
    (before +:+ (("Payload/" +:+ (seg +:+ "/Info.plist")) +:+ rest)) = true.
Proof.
  intros Hne Hslash. apply regexp_facts.MatchString_spec.
  exists before, ("Payload/" +:+ (seg +:+ "/Info.plist")), rest.
  split; [reflexivity |]. unfold reInfoPlist.
  constructor; [now apply regexp_facts.Matches_Str |].
  constructor; [| now apply regexp_facts.Matches_Str].
  clear before rest. unfold regexp.Plus.
  assert (Hstar : forall t, strings.Contains t "/" = false ->
                            regexp.Matches (regexp.Star (regexp.NotLit "/"%char)) t).
  { induction t as [|c t IH]; intros Ht; [constructor |].
    change (String c t) with (String c EmptyString +:+ t).
    simpl in Ht. apply orb_false_iff in Ht as [Hc Ht].
    apply regexp.MStarS; [| auto].
    constructor. intros ->. unfold strings.HasPrefix in Hc. simpl in Hc.
    destruct t; discriminate. }
  destruct seg as [|c seg]; [contradiction |].
  change (String c seg) with (String c EmptyString +:+ seg).
  simpl in Hslash. apply orb_false_iff in Hslash as [Hc Hs].
  constructor; [| auto].
  constructor. intros ->. unfold strings.HasPrefix in Hc. simpl in Hc.
  destruct seg; discriminate.
Qed.

(** ** The classification loop *)

Lemma classifyLoop_spec (files : list zip.File) (m : members) :
  classifyLoop files m =
  (map (fun f => EvClassify (zip.Name f)) files,
   Returns (fold_left classifyStep files m)).
Proof.
  revert m. induction files as [|f files IH]; intros m; [reflexivity |].
  simpl. rewrite IH. reflexivity.
Qed.

Lemma getSlot_classifyStep (s : slot) (m : members) (f : zip.File) :
  getSlot s (classifyStep m f) = if qualifies s f then Some f else getSlot s m.
Proof.
  unfold classifyStep, qualifies, slotOf.
  destruct (String.eqb (zip.Name f) "AndroidManifest.xml");
    [destruct s; reflexivity |].
  destruct (regexp.MatchString reInfoPlist (zip.Name f));
    [destruct s; reflexivity |].
  destruct (strings.Contains (zip.Name f) "Info.plist");
    [destruct s; reflexivity |].
  destruct (strings.Contains (zip.Name f) "AppIcon60x60");
    destruct s; reflexivity.
Qed.

Lemma find_snoc {A : Type} (p : A -> bool) (l : list A) (x : A) :
  List.find p (l ++ [x]) =
  match List.find p l with
  | Some y => Some y
  | None => if p x then Some x else None
  end.
Proof.
  induction l as [|y l IH]; simpl; [reflexivity |].
  destruct (p y); [reflexivity | exact IH].
Qed.

Lemma getSlot_fold (s : slot) (files : list zip.File) (m : members) :
  getSlot s (fold_left classifyStep files m) =
  match List.find (qualifies s) (List.rev files) with
  | Some f => Some f
  | None => getSlot s m
  end.
Proof.
  revert m. induction files as [|f files IH]; intros m; [reflexivity |].
  simpl. rewrite IH, find_snoc, getSlot_classifyStep.
  destruct (List.find (qualifies s) (List.rev files)); [reflexivity |].
  destruct (qualifies s f); reflexivity.
Qed.

(** C2, as stated, fails: with two qualifying entries per slot, the first
    qualifying entry in container order is not the one the classification
    pass keeps; each slot ends up holding the second one. *)
Lemma C2_first_entry_not_kept :
  (List.find (qualifies SlotManifest) twoOfEach = Some firstManifest /\
   getSlot SlotManifest (classified twoOfEach) = Some secondManifest) /\
  (List.find (qualifies SlotPlist) twoOfEach = Some firstPlist /\
   getSlot SlotPlist (classified twoOfEach) = Some secondPlist) /\
  (List.find (qualifies SlotIcon) twoOfEach = Some firstIcon /\
   getSlot SlotIcon (classified twoOfEach) = Some secondIcon) /\
  firstManifest <> secondManifest /\ firstPlist <> secondPlist /\
  firstIcon <> secondIcon.
Proof.
  repeat split; try (vm_compute; reflexivity); discriminate.
Qed.

(** C2, amended: the classification pass returns normally and, for each of
    the three slots, keeps the last qualifying entry in container entry
    order (every later qualifying entry overwrites the slot); the slot is
    empty exactly when no entry qualifies. *)
Theorem C2_last_qualifying_entry_kept (files : list zip.File) (s : slot) :
  result (classifyLoop files noMembers) = Returns (classified files) /\
  getSlot s (classified files) = List.find (qualifies s) (List.rev files).
Proof.
  split; [now rewrite classifyLoop_spec |].
  unfold classified. rewrite getSlot_fold.
  destruct (List.find (qualifies s) (List.rev files)); [reflexivity |].
  destruct s; reflexivity.
Qed.

(** The older revision has the same overwrite-on-match loop. *)
Lemma Rev0_classifyStep_overwrites (m : members) (f g : zip.File) :
  zip.Name f = zip.Name g ->
  Rev0.classifyStep (Rev0.classifyStep m f) g = Rev0.classifyStep m g.
Proof.
  intros E. unfold Rev0.classifyStep. rewrite E.
  destruct (String.eqb (zip.Name g) "AndroidManifest.xml"); [reflexivity |].
  destruct (regexp.MatchString reInfoPlist (zip.Name g)); [reflexivity |].
  destruct (strings.Contains (zip.Name g) "AppIcon60x60"); reflexivity.
Qed.

(** C7, as stated, fails: an [Info.plist] at the root of the container, and
    one nested two levels below [Payload/], are not matches of the pattern
    and yet fill the property-list slot. *)
Lemma C7_plist_slot_taken_outside_pattern :
  (regexp.MatchString reInfoPlist "Info.plist" = false /\
   plistFile (classified [entry "Info.plist" 0 "bplist00"]) =
   Some (entry "Info.plist" 0 "bplist00")) /\
  (regexp.MatchString reInfoPlist "Payload/App.app/Watch/Info.plist" = false /\
   plistFile (classified [entry "Payload/App.app/Watch/Info.plist" 0 "bplist00"]) =
   Some (entry "Payload/App.app/Watch/Info.plist" 0 "bplist00")).
Proof. repeat split; vm_compute; reflexivity. Qed.

(** C7, amended: one turn of the classification loop stores the entry in
    the property-list slot exactly when the entry's path contains the
    substring [Info.plist] anywhere (which covers every path containing a
    match of the pattern); otherwise it leaves the slot as it was. *)
Theorem C7_plist_slot_iff_contains (m : members) (f : zip.File) :
  plistFile (classifyStep m f) =
  if strings.Contains (zip.Name f) "Info.plist" then Some f else plistFile m.
Proof.
  unfold classifyStep.
  destruct (String.eqb (zip.Name f) "AndroidManifest.xml") eqn:E.
  - apply String.eqb_eq in E. rewrite E. reflexivity.
  - destruct (regexp.MatchString reInfoPlist (zip.Name f)) eqn:R.
    + rewrite (reInfoPlist_Contains _ R). reflexivity.
    + destruct (strings.Contains (zip.Name f) "Info.plist"); [reflexivity |].
      destruct (strings.Contains (zip.Name f) "AppIcon60x60"); reflexivity.
Qed.

(** ** The dispatcher on an unknown extension *)

(** C3, as stated, fails on two counts.  On a zip container named
    [report.docx] the call does end with the unknown-platform error, but
    both entries have been visited by the classification loop before the
    extension is looked at.  On a file [notes.docx] that is not a zip
    container the error returned is the container's, not unknown-platform. *)
Lemma C3_entries_classified_before_extension_check :
  filepath.Ext "report.docx" = ".docx" /\
  NewAppParser docxWorld "report.docx" =
    ([EvOsOpen "report.docx"; EvStat; EvZipNewReader;
      EvClassify "[Content_Types].xml"; EvClassify "word/document.xml"],
     Returns (None, Some ErrUnknownPlatform)) /\
  existsb isEntryEvent (trace (NewAppParser docxWorld "report.docx")) = true /\
  filepath.Ext "notes.docx" = ".docx" /\
  result (NewAppParser notesWorld "notes.docx") =
    Returns (None, Some (libError "zip" "zip: not a valid zip file")).
Proof. repeat split; vm_compute; reflexivity. Qed.

(** C3, amended: for every input path whose file opens as a zip container
    and whose name has an extension other than [.apk], [.ipa] and [.zip],
    the inspection fails with the unknown-platform error after opening the
    container and running the classification loop over the entry names;
    no entry is opened or read and no decoder is called. *)
Theorem C3_unknown_extension (W : World) (name : string) (file : osFile)
    (stat : FileInfo) (files : list zip.File) :
  os_Open W name = inr file ->
  Stat file = inr stat ->
  zipNewReader file = inr files ->
  filepath.Ext (statName stat) <> ".apk" ->
  filepath.Ext (statName stat) <> ".ipa" ->
  filepath.Ext (statName stat) <> ".zip" ->
  NewAppParser W name =
    ([EvOsOpen name; EvStat; EvZipNewReader]
       ++ map (fun f => EvClassify (zip.Name f)) files,
     Returns (None, Some ErrUnknownPlatform)) /\
  forallb (fun e => negb (isDecodeEvent e)) (trace (NewAppParser W name)) = true /\
  ~ (exists n, In (EvEntryOpen n) (trace (NewAppParser W name))) /\
  ~ In EvReadAll (trace (NewAppParser W name)).
Proof.
  intros Hopen Hstat Hzip Hapk Hipa Hzipext.
  assert (Hrun : NewAppParser W name =
    ([EvOsOpen name; EvStat; EvZipNewReader]
       ++ map (fun f => EvClassify (zip.Name f)) files,
     Returns (None, Some ErrUnknownPlatform))).
  { unfold NewAppParser. rewrite Hopen, Hstat, Hzip, classifyLoop_spec.
    unfold androidExt, iosExt.
    apply String.eqb_neq in Hapk, Hipa, Hzipext.
    simpl. rewrite Hapk, Hipa, Hzipext. simpl.
    rewrite app_nil_r. reflexivity. }
  rewrite Hrun. unfold trace. simpl. split; [reflexivity |].
  assert (Hmap : forall e, In e (map (fun f => EvClassify (zip.Name f)) files) ->
                           exists n, e = EvClassify n).
  { intros e He. apply in_map_iff in He as (f & <- & _). eauto. }
  repeat split.
  - apply forallb_forall. intros e He. apply Hmap in He as [n ->]. reflexivity.
  - intros [n [H|[H|[H|H]]]]; try discriminate.
    apply Hmap in H as [n' H]. discriminate.
  - intros [H|[H|[H|H]]]; try discriminate.
    apply Hmap in H as [n' H]. discriminate.
Qed.

(** The amended C3 at the word-processor document. *)
Lemma C3_unknown_extension_witness :
  NewAppParser docxWorld "report.docx" =
    ([EvOsOpen "report.docx"; EvStat; EvZipNewReader]
       ++ map (fun f => EvClassify (zip.Name f)) docxFiles,
     Returns (None, Some ErrUnknownPlatform)) /\
  forallb (fun e => negb (isDecodeEvent e))
    (trace (NewAppParser docxWorld "report.docx")) = true /\
  ~ (exists n, In (EvEntryOpen n) (trace (NewAppParser docxWorld "report.docx"))) /\
  ~ In EvReadAll (trace (NewAppParser docxWorld "report.docx")).
Proof.
  apply (C3_unknown_extension docxWorld "report.docx"
           (archive "report.docx" 2048 docxFiles)
           (mkFileInfo "report.docx" 2048) docxFiles);
    try reflexivity; vm_compute; discriminate.
Defined.

(** ** The iOS icon step *)

(** C9: called without a candidate entry, the iOS icon step returns the
    icon-not-found error and performs no step at all: in particular no
    entry is opened and no decoder is run.  The same holds at the older
    revision. *)
Theorem C9_nil_icon_entry (W : World) :
  parseIpaIcon W None = ([], Returns (None, Some ErrIconNotFound)) /\
  existsb isDecodeEvent (trace (parseIpaIcon W None)) = false /\
  Rev0.parseIpaIcon None = ([], Returns ([], Some ErrIconNotFound)).
Proof. repeat split. Qed.

(** C10, as stated, fails: for a non-nil entry whose stream does not open,
    the step fails with the open error although PNG decoding would succeed
    on any bytes; the PNG decoder is not even reached. *)
Lemma C10_open_error_decides :
  (forall buf, png_Decode lenientPngWorld buf = inr sampleImage) /\
  parseIpaIcon lenientPngWorld (Some lzmaIcon) =
    ([EvEntryOpen "Payload/App.app/AppIcon60x60@2x.png"],
     Returns (None, Some (libError "zip" "zip: unsupported compression algorithm"))).
Proof. split; [intros buf |]; reflexivity. Qed.

(** C10, amended: for every non-nil icon entry whose stream opens, the
    outcome of the step is that of standard PNG decoding applied to the
    bytes written by the revert-optimization step: the decoded image on
    success, the decoder's error on failure.  The error returned by the
    revert-optimization step does not occur in the outcome.  For every
    non-nil icon entry whose stream does not open, the open error is
    returned with no image, the entry is the only thing touched, and no
    decoding takes place. *)
Theorem C10_png_decode_decides (W : World) (f : zip.File) :
  (forall rc : zip.ReadCloser,
     zip.Open f = inr rc ->
     parseIpaIcon W (Some f) =
       ([EvEntryOpen (zip.Name f); EvPngRevert; EvPngDecode],
        Returns
          match png_Decode W (fst (iospng_PngRevertOptimization W rc)) with
          | inl err => (None, Some err)
          | inr img => (Some img, None)
          end)) /\
  (forall err : error,
     zip.Open f = inl err ->
     parseIpaIcon W (Some f) =
       ([EvEntryOpen (zip.Name f)], Returns (None, Some err)) /\
     existsb isDecodeEvent (trace (parseIpaIcon W (Some f))) = false).
Proof.
  split.
  - intros rc Hopen. unfold parseIpaIcon. rewrite Hopen. simpl.
    destruct (png_Decode W (iospng_PngRevertOptimization W rc).1); reflexivity.
  - intros err Hopen.
    assert (Hrun : parseIpaIcon W (Some f) =
                   ([EvEntryOpen (zip.Name f)], Returns (None, Some err))).
    { unfold parseIpaIcon. rewrite Hopen. reflexivity. }
    split; [exact Hrun |]. rewrite Hrun. reflexivity.
Qed.

(** The amended C10 where the revert-optimization step reports an error
    (the error returned is the PNG decoder's), and where the entry does
    not open (the error returned is the container's, with no decoding). *)
Lemma C10_png_decode_decides_witness :
  parseIpaIcon brokenRevertWorld (Some firstIcon) =
    ([EvEntryOpen "Payload/A.app/AppIcon60x60@2x.png"; EvPngRevert; EvPngDecode],
     Returns (None, Some (libError "png" "unexpected EOF"))) /\
  (parseIpaIcon brokenRevertWorld (Some lzmaIcon) =
     ([EvEntryOpen "Payload/App.app/AppIcon60x60@2x.png"],
      Returns (None, Some (libError "zip" "zip: unsupported compression algorithm"))) /\
   existsb isDecodeEvent (trace (parseIpaIcon brokenRevertWorld (Some lzmaIcon))) = false).
Proof.
  split.
  - exact (proj1 (C10_png_decode_decides brokenRevertWorld firstIcon)
             (zip.mkReadCloser (bytesOf "first") None) eq_refl).
  - exact (proj2 (C10_png_decode_decides brokenRevertWorld lzmaIcon)
             (libError "zip" "zip: unsupported compression algorithm") eq_refl).
Defined.

(** ** The property-list field mapping *)

(** [parseIpaFile] on an entry that opens, reads and decodes. *)
Lemma parseIpaFile_decoded (W : World) (f : zip.File) (rc : zip.ReadCloser)
    (p : iosPlist) :
  zip.Open f = inr rc ->
  zip.rcErr rc = None ->
  plist_Decode W (zip.rcData rc) = inr p ->
  parseIpaFile W (Some f) =
    (_ ← emit (EvEntryOpen (zip.Name f));
     _ ← emit EvReadAll;
     _ ← emit EvPlistDecode;
     info ← ipaIconNavigation p (ipaPlainFields p);
     mret (Some info, None)).
Proof.
  intros Hopen Herr Hdec. unfold parseIpaFile, ReadAll.
  rewrite Hopen, Herr, Hdec. reflexivity.
Qed.

Lemma iconFilesLoop_strings (names : list string) (info : appInfo) :
  iconFilesLoop (map PString names) info =
  ([], Returns (fold_left (fun i s => set_IconFileName s i) names info)).
Proof.
  revert info. induction names as [|s names IH]; intros info; [reflexivity |].
  simpl. apply IH.
Qed.

Lemma last_cons_default {A : Type} (x : A) (l : list A) (d d' : A) :
  List.last (x :: l) d = List.last (x :: l) d'.
Proof.
  revert x. induction l as [|y l IH]; intros x; [reflexivity |].
  change (List.last (y :: l) d = List.last (y :: l) d'). apply IH.
Qed.

Lemma IconFileName_fold (names : list string) (info : appInfo) :
  IconFileName (fold_left (fun i s => set_IconFileName s i) names info) =
  List.last names (IconFileName info).
Proof.
  revert info. induction names as [|s names IH]; intros info; [reflexivity |].
  simpl fold_left. rewrite IH.
  destruct names as [|s' names]; [reflexivity |].
  change (List.last (s :: s' :: names) (IconFileName info))
    with (List.last (s' :: names) (IconFileName info)).
  apply last_cons_default.
Qed.

Lemma iconFilesLoop_Build (items : list plistValue) (info info' : appInfo)
    (t : list event) :
  iconFilesLoop items info = (t, Returns info') -> Build info' = Build info.
Proof.
  revert info. induction items as [|v items IH]; intros info H.
  - injection H as _ <-. reflexivity.
  - destruct v; simpl in H; try discriminate.
    apply IH in H. exact H.
Qed.

(** Whatever the input, a record returned by [parseIpaFile] has an empty
    [Build]: the function never assigns the field. *)
Lemma parseIpaFile_Build_empty (W : World) (f : option zip.File)
    (info : appInfo) (err : option error) :
  result (parseIpaFile W f) = Returns (Some info, err) -> Build info = EmptyString.
Proof.
  destruct f as [f|]; [| discriminate].
  unfold parseIpaFile, ReadAll.
  destruct (zip.Open f) as [e|rc]; [discriminate |].
  destruct (zip.rcErr rc); [discriminate |].
  destruct (plist_Decode W (zip.rcData rc)) as [e|p]; [discriminate |].
  fold (ipaPlainFields p). fold (ipaIconNavigation p (ipaPlainFields p)).
  destruct (ipaIconNavigation p (ipaPlainFields p)) as [t [i|pn]] eqn:Hnav;
    [| discriminate].
  unfold result. simpl. intros H. injection H as <- _.
  assert (Build i = Build (ipaPlainFields p)) as ->.
  { unfold ipaIconNavigation in Hnav.
    destruct (CFBundleIcons p !! "CFBundlePrimaryIcon") as [primary|].
    - destruct (primary !! "CFBundleIconFiles") as [[]|]; try discriminate.
      now apply iconFilesLoop_Build in Hnav.
    - injection Hnav as _ <-. reflexivity. }
  unfold ipaPlainFields.
  destruct (String.eqb (CFBundleDisplayName p) EmptyString); reflexivity.
Qed.

(** The older revision does assign [Build] from [CFBundleVersion]. *)
Lemma Rev0_parseIpaFile_Build (dec : list byte -> error + Rev0.iosPlist)
    (f : zip.File) (rc : zip.ReadCloser) (p : Rev0.iosPlist) :
  zip.Open f = inr rc -> zip.rcErr rc = None -> dec (zip.rcData rc) = inr p ->
  exists info, result (Rev0.parseIpaFile dec (Some f)) = Returns (Some info, None) /\
               Rev0.Build info = Rev0.CFBundleVersion p.
Proof.
  intros Hopen Herr Hdec. unfold Rev0.parseIpaFile, ReadAll.
  rewrite Hopen, Herr, Hdec. eexists. split; reflexivity.
Qed.

(** C4, as stated, fails on two counts.  With two names in the icon list
    the extracted name is the second and last one, not the first.  With no
    [CFBundleIcons] at all the name is empty, the classification pass has
    selected the [AppIcon60x60] entry, and yet the entry opened for the
    icon is the last entry of the container. *)
Lemma C4_first_name_and_candidate_not_used :
  (exists info,
     result (parseIpaFile (helloIpaWorld twoIconFiles) (Some helloInfoPlist)) =
       Returns (Some info, None) /\
     IconFileName info = "AppIcon60x60" /\ IconFileName info <> "AppIcon29x29") /\
  (iosIconFile (classified [helloInfoPlist; helloIcon; helloPkgInfo]) = Some helloIcon /\
   (exists info,
      result (NewAppParser (helloIpaWorld ∅) "app.ipa") = Returns (Some info, None) /\
      IconFileName info = EmptyString) /\
   openedEntries (trace (NewAppParser (helloIpaWorld ∅) "app.ipa")) =
     ["Payload/App.app/Info.plist"; "Payload/App.app/PkgInfo"]).
Proof.
  split; [| split; [| split]].
  - eexists. split; [vm_compute; reflexivity |]. split; [reflexivity | discriminate].
  - vm_compute. reflexivity.
  - eexists. split; [vm_compute; reflexivity | reflexivity].
  - vm_compute. reflexivity.
Qed.

(** C4, amended: for every property-list entry that opens, reads and
    decodes, (a) when [CFBundleIcons.CFBundlePrimaryIcon.CFBundleIconFiles]
    is present as a list of strings, the record is returned normally and its
    icon file name is the last string of that list (empty for an empty
    list); (b) when [CFBundleIcons] has no [CFBundlePrimaryIcon], this is
    not an error and the icon file name is empty. *)
Theorem C4_icon_file_name (W : World) (f : zip.File) (rc : zip.ReadCloser)
    (p : iosPlist) :
  zip.Open f = inr rc ->
  zip.rcErr rc = None ->
  plist_Decode W (zip.rcData rc) = inr p ->
  (forall primary names,
     CFBundleIcons p !! "CFBundlePrimaryIcon" = Some primary ->
     primary !! "CFBundleIconFiles" = Some (PArray (map PString names)) ->
     exists info,
       result (parseIpaFile W (Some f)) = Returns (Some info, None) /\
       IconFileName info = List.last names EmptyString) /\
  (CFBundleIcons p !! "CFBundlePrimaryIcon" = None ->
   exists info,
     result (parseIpaFile W (Some f)) = Returns (Some info, None) /\
     IconFileName info = EmptyString).
Proof.
  intros Hopen Herr Hdec.
  rewrite (parseIpaFile_decoded W f rc p Hopen Herr Hdec).
  assert (Hplain : IconFileName (ipaPlainFields p) = EmptyString).
  { unfold ipaPlainFields.
    destruct (String.eqb (CFBundleDisplayName p) EmptyString); reflexivity. }
  split.
  - intros primary names Hprimary Hfiles.
    unfold ipaIconNavigation. rewrite Hprimary, Hfiles, iconFilesLoop_strings.
    eexists. split; [reflexivity |].
    rewrite IconFileName_fold, Hplain. reflexivity.
  - intros Hnone. unfold ipaIconNavigation. rewrite Hnone.
    eexists. split; [reflexivity | exact Hplain].
Qed.

(** The amended C4 at a list of two names and at a property list without
    [CFBundleIcons]. *)
Lemma C4_icon_file_name_witness :
  (exists info,
     result (parseIpaFile (helloIpaWorld twoIconFiles) (Some helloInfoPlist)) =
       Returns (Some info, None) /\
     IconFileName info = "AppIcon60x60") /\
  (exists info,
     result (parseIpaFile (helloIpaWorld ∅) (Some helloInfoPlist)) =
       Returns (Some info, None) /\
     IconFileName info = EmptyString).
Proof.
  split.
  - apply (proj1 (C4_icon_file_name (helloIpaWorld twoIconFiles) helloInfoPlist
                    (zip.mkReadCloser (bytesOf "bplist00") None)
                    (helloPlist twoIconFiles) eq_refl eq_refl eq_refl)
             {[ "CFBundleIconFiles" := PArray [PString "AppIcon29x29"; PString "AppIcon60x60"] ]}
             ["AppIcon29x29"; "AppIcon60x60"]);
      vm_compute; reflexivity.
  - apply (proj2 (C4_icon_file_name (helloIpaWorld ∅) helloInfoPlist
                    (zip.mkReadCloser (bytesOf "bplist00") None)
                    (helloPlist ∅) eq_refl eq_refl eq_refl)).
    vm_compute. reflexivity.
Defined.

(** C5 does not hold of [parseIpaFile]: on the property list of the iOS
    scenario (identifier [com.kthcorp.helloworld], short version [1.0],
    bundle version [1.0], no display name) the record is returned with the
    name, identifier and version the claim gives, but with an empty
    [Build]; the bundle version is stored in [VersionCode] only. *)
Theorem C5_ipa_build_left_empty :
  CFBundleDisplayName (helloPlist ∅) = EmptyString /\
  CFBundleVersion (helloPlist ∅) = "1.0" /\
  exists info,
    result (parseIpaFile (helloIpaWorld ∅) (Some helloInfoPlist)) =
      Returns (Some info, None) /\
    Name info = CFBundleName (helloPlist ∅) /\
    PackageName info = "com.kthcorp.helloworld" /\
    Version info = "1.0" /\
    VersionCode info = "1.0" /\
    Build info = EmptyString.
Proof.
  split; [reflexivity |]. split; [reflexivity |].
  eexists. split; [vm_compute; reflexivity |]. repeat split.
Qed.

(** C8 does not hold of [parseIpaFile]: when [CFBundlePrimaryIcon] is
    present and [CFBundleIconFiles] is absent, is not a sequence, or holds
    an element that is not a string, the function stops with a run-time
    panic (a failed type assertion) and returns no record. *)
Theorem C8_icon_navigation_panics :
  result (parseIpaFile (helloIpaWorld iconNameOnly) (Some helloInfoPlist)) =
    Panics BadTypeAssertion /\
  result (parseIpaFile (helloIpaWorld iconFilesNotAList) (Some helloInfoPlist)) =
    Panics BadTypeAssertion /\
  result (parseIpaFile (helloIpaWorld iconFilesNotStrings) (Some helloInfoPlist)) =
    Panics BadTypeAssertion.
Proof. repeat split; vm_compute; reflexivity. Qed.

(** ** The Android path *)

(** C1 does not hold of [NewAppParser]: on an [.apk] whose manifest is
    missing, or present but undecodable, [parseApkFile] does report the
    failure, but the dispatcher drops it, goes on to resolve icon and label,
    and then stops with a nil-pointer panic when it assigns the label to the
    missing record.  No error value reaches the caller. *)
Theorem C1_apk_manifest_failure_panics :
  (parseApkFile noManifestWorld (xmlFile (classified [helloDex])) =
     ([], Returns (None, Some ErrManifestNotFound)) /\
   NewAppParser noManifestWorld "app.apk" =
     ([EvOsOpen "app.apk"; EvStat; EvZipNewReader; EvClassify "classes.dex";
       EvApkOpenFile "app.apk"; EvApkIcon; EvApkLabel; EvExec "aapt"],
      Panics NilDereference)) /\
  (result (parseApkFile badManifestWorld
             (xmlFile (classified [helloManifestEntry; helloDex]))) =
     Returns (None, Some (libError "xml" "unexpected EOF")) /\
   NewAppParser badManifestWorld "app.apk" =
     ([EvOsOpen "app.apk"; EvStat; EvZipNewReader;
       EvClassify "AndroidManifest.xml"; EvClassify "classes.dex";
       EvEntryOpen "AndroidManifest.xml"; EvReadAll; EvNewXMLFile; EvXmlDecode;
       EvApkOpenFile "app.apk"; EvApkIcon; EvApkLabel; EvExec "aapt"],
      Panics NilDereference)).
Proof. repeat split; vm_compute; reflexivity. Qed.

(** C6 does not hold of the Android path: with a decodable manifest and a
    resolvable icon, a badging report that has no launchable-activity
    section, or whose section has no label, makes the label lookup index a
    one-element slice at position 1; the call stops with a run-time panic
    instead of returning the record with the best-effort label.  A complete
    report is handled. *)
Theorem C6_label_override_panics :
  result (parseApkIconAndLabel
            (helloApkWorld [helloManifestEntry; helloDex] (inr helloManifest)
               badgingWithoutLauncher) "app.apk") = Panics IndexOutOfRange /\
  result (NewAppParser
            (helloApkWorld [helloManifestEntry; helloDex] (inr helloManifest)
               badgingWithoutLauncher) "app.apk") = Panics IndexOutOfRange /\
  result (NewAppParser
            (helloApkWorld [helloManifestEntry; helloDex] (inr helloManifest)
               badgingWithoutLabel) "app.apk") = Panics IndexOutOfRange /\
  exists info,
    result (NewAppParser
              (helloApkWorld [helloManifestEntry; helloDex] (inr helloManifest)
                 badgingComplete) "app.apk") = Returns (Some info, None) /\
    Name info = "Hello World".
Proof.
  split; [vm_compute; reflexivity |]. split; [vm_compute; reflexivity |].
  split; [vm_compute; reflexivity |].
  eexists. split; [vm_compute; reflexivity | reflexivity].
Qed.

(** What the dispatcher does recover from: an error returned by the icon
    and label step of the Android path, and an error returned by the icon
    step of the iOS path, leave the record in place. *)
Lemma NewAppParser_icon_error_recovered :
  (exists info,
     result (NewAppParser
               (worldWith "app.apk"
                  (archive "app.apk" 8192 [helloManifestEntry; helloDex])
                  (inr helloManifest)
                  (inl (libError "plist" "invalid property list"))
                  (inl (libError "apk" "no resources")) EmptyString) "app.apk") =
       Returns (Some info, None) /\
     Base64 info = EmptyString /\ Name info = EmptyString /\
     PackageName info = "com.example.helloworld") /\
  (exists info,
     result (NewAppParser
               (worldWith "app.ipa" (archive "app.ipa" 4096 [helloInfoPlist])
                  (inl (libError "androidbinary" "invalid chunk"))
                  (inr (helloPlist twoIconFiles))
                  (inl (libError "apk" "no resources")) EmptyString) "app.ipa") =
       Returns (Some info, None) /\
     Icon info = None /\ PackageName info = "com.kthcorp.helloworld").
Proof.
  split; eexists; (split; [vm_compute; reflexivity | repeat split]).
Qed.

(** The panic of the Android path does not depend on the sample: whenever
    the container opens, the name ends in [.apk] and [parseApkFile] returns
    no record, the dispatcher never returns. *)
Lemma NewAppParser_apk_without_record (W : World) (name : string)
    (file : osFile) (stat : FileInfo) (files : list zip.File)
    (t : list event) (err : option error) :
  os_Open W name = inr file ->
  Stat file = inr stat ->
  zipNewReader file = inr files ->
  filepath.Ext (statName stat) = ".apk" ->
  parseApkFile W (xmlFile (classified files)) = (t, Returns (None, err)) ->
  exists p, result (NewAppParser W name) = Panics p.
Proof.
  intros Hopen Hstat Hzip Hext Hparse.
  unfold NewAppParser. rewrite Hopen, Hstat, Hzip, classifyLoop_spec, Hext.
  fold (classified files). simpl. rewrite Hparse. simpl.
  destruct (parseApkIconAndLabel W name) as [t' [[[icon label] e]|p]]; simpl.
  - destruct e; simpl; eauto.
  - eauto.
Qed.

(** * Further properties of the parser *)

(** ** The monad *)

Lemma emit_bind {A : Type} (e : event) (k : Go A) :
  (_ ← emit e; k) = (e :: trace k, result k).
Proof. destruct k as [t r]. reflexivity. Qed.

Lemma result_bind {A B : Type} (m : Go A) (f : A -> Go B) :
  result (m ≫= f) =
  match result m with
  | Returns a => result (f a)
  | Panics p => Panics p
  end.
Proof.
  destruct m as [t [a|p]]; [| reflexivity].
  unfold mbind, Go_bind, result. simpl. destruct (f a). reflexivity.
Qed.

Lemma trace_bind {A B : Type} (m : Go A) (f : A -> Go B) :
  trace (m ≫= f) =
  trace m ++ match result m with
             | Returns a => trace (f a)
             | Panics _ => []
             end.
Proof.
  destruct m as [t [a|p]].
  - unfold mbind, Go_bind, trace. simpl. destruct (f a). reflexivity.
  - unfold mbind, Go_bind, trace. simpl. now rewrite app_nil_r.
Qed.

(** ** The entry-name pattern *)

Lemma HasPrefix_byte_ne (a c : ascii) (s : string) :
  a <> c -> strings.HasPrefix (String a s) (String c EmptyString) = false.
Proof.
  intros Hne. unfold strings.HasPrefix.
  change (match ascii_dec c a with
          | left _ => String.prefix EmptyString s
          | right _ => false
          end = false).
  destruct (ascii_dec c a) as [E|E]; [subst; contradiction | reflexivity].
Qed.

Lemma Matches_star_notlit (c : ascii) (s : string) :
  regexp.Matches (regexp.Star (regexp.NotLit c)) s ->
  strings.Contains s (String c EmptyString) = false.
Proof.
  intros H. remember (regexp.Star (regexp.NotLit c)) as r eqn:Er.
  induction H; try discriminate.
  - reflexivity.
  - injection Er as ->.
    match goal with
    | [ H1 : regexp.Matches (regexp.NotLit c) _ |- _ ] => inversion H1; subst
    end.
    change (strings.HasPrefix (String a s2) (String c EmptyString)
            || strings.Contains s2 (String c EmptyString) = false).
    rewrite IHMatches2 by reflexivity.
    now rewrite HasPrefix_byte_ne.
Qed.

(** X1: the container pattern accepts exactly the names that contain,
    anywhere, [Payload/], then a non-empty run of bytes other than the
    slash, then [/Info.plist]; nothing anchors the match to the start or to
    the end of the name. *)
Theorem reInfoPlist_matches_iff (name : string) :
  regexp.MatchString reInfoPlist name = true <->
  exists before seg rest,
    name = before +:+ (("Payload/" +:+ (seg +:+ "/Info.plist")) +:+ rest) /\
    seg <> EmptyString /\ strings.Contains seg "/" = false.
Proof.
  split.
  - intros H. apply regexp_facts.MatchString_spec in H
      as (before & mid & rest & -> & H).
    unfold reInfoPlist in H.
    inversion H as [| | | | ? ? p q Hp Hq | | | |]; subst.
    inversion Hq as [| | | | ? ? seg tail Hseg Htail | | | |]; subst.
    apply (regexp_facts.Matches_Str "Payload/") in Hp. subst p.
    apply (regexp_facts.Matches_Str "/Info.plist") in Htail. subst tail.
    exists before, seg, rest. split; [reflexivity |].
    unfold regexp.Plus in Hseg.
    inversion Hseg as [| | | | ? ? s1 s2 H1 H2 | | | |]; subst.
    inversion H1; subst. split; [intros E; discriminate E |].
    apply Matches_star_notlit in H2.
    change (strings.HasPrefix (String a s2) "/" || strings.Contains s2 "/" = false).
    rewrite H2. now rewrite HasPrefix_byte_ne.
  - intros (before & seg & rest & -> & Hne & Hs).
    now apply reInfoPlist_unanchored.
Qed.

(** ** The classification pass *)

Lemma classifyStep_irrelevant (m : members) (f : zip.File) :
  slotOf (zip.Name f) = None -> classifyStep m f = m.
Proof.
  unfold slotOf, classifyStep.
  destruct (String.eqb (zip.Name f) "AndroidManifest.xml"); [discriminate |].
  destruct (regexp.MatchString reInfoPlist (zip.Name f)); [discriminate |].
  destruct (strings.Contains (zip.Name f) "Info.plist"); [discriminate |].
  destruct (strings.Contains (zip.Name f) "AppIcon60x60"); [discriminate |].
  reflexivity.
Qed.

(** X2: an entry accepted by none of the cases of the classification
    [switch] can be inserted anywhere in the container listing without
    changing any of the three slots. *)
Theorem classified_irrelevant_entry (l1 l2 : list zip.File) (f : zip.File) :
  slotOf (zip.Name f) = None ->
  classified (l1 ++ f :: l2) = classified (l1 ++ l2).
Proof.
  intros H. unfold classified. rewrite !fold_left_app. simpl.
  now rewrite classifyStep_irrelevant.
Qed.

Lemma classified_irrelevant_entry_witness :
  classified ([firstManifest] ++ helloDex :: [firstIcon]) =
  classified ([firstManifest] ++ [firstIcon]).
Proof.
  apply (classified_irrelevant_entry [firstManifest] [firstIcon] helloDex).
  vm_compute. reflexivity.
Defined.

Lemma qualifies_names (s : slot) (f : zip.File) :
  qualifies s f = true ->
  match s with
  | SlotManifest => zip.Name f = "AndroidManifest.xml"
  | SlotPlist =>
      strings.Contains (zip.Name f) "Info.plist" = true /\
      zip.Name f <> "AndroidManifest.xml"
  | SlotIcon =>
      strings.Contains (zip.Name f) "AppIcon60x60" = true /\
      strings.Contains (zip.Name f) "Info.plist" = false /\
      zip.Name f <> "AndroidManifest.xml"
  end.
Proof.
  unfold qualifies, slotOf.
  destruct (String.eqb (zip.Name f) "AndroidManifest.xml") eqn:E.
  - apply String.eqb_eq in E. destruct s; simpl; intros H; try discriminate. exact E.
  - apply String.eqb_neq in E.
    destruct (regexp.MatchString reInfoPlist (zip.Name f)) eqn:R.
    + apply reInfoPlist_Contains in R.
      destruct s; simpl; intros H; try discriminate. auto.
    + destruct (strings.Contains (zip.Name f) "Info.plist") eqn:P.
      * destruct s; simpl; intros H; try discriminate. auto.
      * destruct (strings.Contains (zip.Name f) "AppIcon60x60") eqn:I;
          destruct s; simpl; intros H; try discriminate. auto.
Qed.

(** X3: whatever the listing, an entry found in a slot after the
    classification pass is an entry of the listing, and its name is exactly
    [AndroidManifest.xml] (manifest slot), contains [Info.plist] (property
    list slot), or contains [AppIcon60x60] and not [Info.plist] (icon slot):
    an icon whose path also contains [Info.plist] is never an icon
    candidate. *)
Theorem classified_slot_sound (files : list zip.File) (s : slot) (f : zip.File) :
  getSlot s (classified files) = Some f ->
  In f files /\
  match s with
  | SlotManifest => zip.Name f = "AndroidManifest.xml"
  | SlotPlist =>
      strings.Contains (zip.Name f) "Info.plist" = true /\
      zip.Name f <> "AndroidManifest.xml"
  | SlotIcon =>
      strings.Contains (zip.Name f) "AppIcon60x60" = true /\
      strings.Contains (zip.Name f) "Info.plist" = false /\
      zip.Name f <> "AndroidManifest.xml"
  end.
Proof.
  unfold classified. rewrite getSlot_fold.
  destruct (List.find (qualifies s) (List.rev files)) as [g|] eqn:F.
  - intros H. injection H as ->. apply List.find_some in F as [Hin Hq].
    split; [now apply List.in_rev | now apply qualifies_names].
  - destruct s; discriminate.
Qed.

Lemma classified_slot_sound_witness :
  In secondIcon twoOfEach /\
  strings.Contains (zip.Name secondIcon) "AppIcon60x60" = true /\
  strings.Contains (zip.Name secondIcon) "Info.plist" = false /\
  zip.Name secondIcon <> "AndroidManifest.xml".
Proof.
  apply (classified_slot_sound twoOfEach SlotIcon secondIcon).
  vm_compute. reflexivity.
Defined.

(** X4: at the older revision one turn of the classification loop stores
    the entry in the property-list slot exactly when its name contains a
    match of the pattern; a bare [Info.plist] elsewhere is not taken. *)
Theorem Rev0_plist_slot_iff_pattern (m : members) (f : zip.File) :
  plistFile (Rev0.classifyStep m f) =
  if regexp.MatchString reInfoPlist (zip.Name f) then Some f else plistFile m.
Proof.
  unfold Rev0.classifyStep.
  destruct (String.eqb (zip.Name f) "AndroidManifest.xml") eqn:E.
  - apply String.eqb_eq in E. rewrite E. reflexivity.
  - destruct (regexp.MatchString reInfoPlist (zip.Name f)); [reflexivity |].
    destruct (strings.Contains (zip.Name f) "AppIcon60x60"); reflexivity.
Qed.

(** ** Splitting the report of the badging tool *)

Lemma HasPrefix_byte (a c : ascii) (s : string) :
  strings.HasPrefix (String a s) (String c EmptyString) = Ascii.eqb a c.
Proof.
  unfold strings.HasPrefix.
  change (match ascii_dec c a with
          | left _ => String.prefix EmptyString s
          | right _ => false
          end = Ascii.eqb a c).
  destruct (ascii_dec c a) as [E|E].
  - subst. rewrite Ascii.eqb_refl. destruct s; reflexivity.
  - symmetry. apply Ascii.eqb_neq. congruence.
Qed.

Lemma splitFrom_cons (sep : string) (k : nat) (s : string) :
  exists h t, strings.splitFrom sep k s = h :: t.
Proof.
  revert k. induction s as [|c s IH]; intros k.
  - exists EmptyString, []. reflexivity.
  - destruct k as [|k]; [| apply IH].
    cbn [strings.splitFrom].
    destruct (strings.HasPrefix (String c s) sep);
      [do 2 eexists; reflexivity |].
    destruct (strings.splitFrom sep 0 s); do 2 eexists; reflexivity.
Qed.

Lemma joinWith_cons_byte (sep : string) (c : ascii) (h : string) (t : list string) :
  joinWith sep (String c h :: t) = String c (joinWith sep (h :: t)).
Proof. destruct t; reflexivity. Qed.

Lemma prefix_dropBytes (p s : string) :
  String.prefix p s = true -> s = p +:+ dropBytes (String.length p) s.
Proof.
  revert s. induction p as [|a p IH]; intros s H; [reflexivity |].
  destruct s as [|b s]; [discriminate |].
  simpl in H. destruct (ascii_dec a b) as [->|]; [| discriminate].
  simpl. f_equal. now apply IH.
Qed.

Lemma dropBytes_nil (k : nat) : dropBytes k EmptyString = EmptyString.
Proof. destruct k; reflexivity. Qed.

Lemma joinWith_splitFrom (sep : string) (k : nat) (s : string) :
  sep <> EmptyString ->
  joinWith sep (strings.splitFrom sep k s) = dropBytes k s.
Proof.
  intros Hsep. revert k. induction s as [|c s IH]; intros k.
  - now rewrite dropBytes_nil.
  - destruct k as [|k]; [| apply IH].
    cbn [strings.splitFrom].
    destruct (strings.HasPrefix (String c s) sep) eqn:P.
    + destruct (splitFrom_cons sep (String.length sep - 1) s) as (h & t & E).
      specialize (IH (String.length sep - 1)). rewrite E in *.
      change (EmptyString +:+ (sep +:+ joinWith sep (h :: t)) = String c s).
      rewrite IH. unfold strings.HasPrefix in P.
      apply prefix_dropBytes in P.
      destruct sep as [|a sep]; [contradiction |].
      simpl in *. rewrite Nat.sub_0_r. symmetry. exact P.
    + destruct (splitFrom_cons sep 0 s) as (h & t & E).
      specialize (IH 0%nat). rewrite E in *.
      rewrite joinWith_cons_byte, IH. reflexivity.
Qed.

(** X5: for a non-empty separator, [strings.Split] loses nothing: joining
    the pieces with the separator gives the string back. *)
Theorem Split_joinWith (s sep : string) :
  sep <> EmptyString -> joinWith sep (strings.Split s sep) = s.
Proof. intros H. unfold strings.Split. now rewrite joinWith_splitFrom. Qed.

Lemma Split_joinWith_witness :
  joinWith "label='" (strings.Split badgingComplete "label='") = badgingComplete.
Proof. apply Split_joinWith. discriminate. Defined.

Lemma splitFrom_absent (s sep : string) :
  strings.Contains s sep = false -> strings.splitFrom sep 0 s = [s].
Proof.
  induction s as [|c s IH]; intros H; [reflexivity |].
  cbn [strings.Contains] in H. apply orb_false_iff in H as [P H].
  cbn [strings.splitFrom]. rewrite P, (IH H). reflexivity.
Qed.

(** X6: when the separator does not occur in the string, [strings.Split]
    returns the one-element slice holding the string itself; the slice it
    returns is never empty, so a guard [len(pieces) > 0] always passes and
    only index 0 is safe. *)
Theorem Split_absent (s sep : string) :
  strings.Contains s sep = false ->
  strings.Split s sep = [s] /\ strings.Split s sep !! 1%nat = None.
Proof.
  intros H. unfold strings.Split. rewrite (splitFrom_absent s sep H).
  split; reflexivity.
Qed.

Lemma Split_absent_witness :
  strings.Split badgingWithoutLauncher "launchable-activity" = [badgingWithoutLauncher] /\
  strings.Split badgingWithoutLauncher "launchable-activity" !! 1%nat = None.
Proof. apply Split_absent. vm_compute. reflexivity. Defined.

(** X7: the piece before the first quote always exists and holds no quote:
    indexing the last split of the label override at 0 never panics, and
    the [strings.Replace] applied to that piece changes nothing. *)
Theorem first_piece_has_no_quote (t : string) :
  exists t0,
    index (strings.Split t "'") 0 = mret t0 /\
    strings.RemoveByte t0 "'"%char = t0.
Proof.
  unfold strings.Split, index.
  induction t as [|a t (t0 & E & R)].
  - exists EmptyString. split; reflexivity.
  - cbn [strings.splitFrom]. rewrite HasPrefix_byte.
    destruct (Ascii.eqb a "'"%char) eqn:Q.
    + exists EmptyString. split; reflexivity.
    + destruct (splitFrom_cons "'" 0 t) as (h & tl & E').
      rewrite E' in *. simpl in E. injection E as <-.
      exists (String a h). split; [reflexivity |].
      simpl. rewrite Q, R. reflexivity.
Qed.

(** ** The extension of the file name *)

Lemma extScan_none (e : string) :
  strings.Contains e "." = false -> strings.Contains e "/" = false ->
  filepath.extScan e = None.
Proof.
  induction e as [|a e IH]; intros Hd Hs; [reflexivity |].
  cbn [strings.Contains] in Hd, Hs.
  apply orb_false_iff in Hd as [Hd Hd'], Hs as [Hs Hs'].
  rewrite HasPrefix_byte in Hd, Hs.
  simpl. rewrite (IH Hd' Hs'), Hd, Hs. reflexivity.
Qed.

Lemma extScan_app (base x r : string) :
  filepath.extScan x = Some r -> filepath.extScan (base +:+ x) = Some r.
Proof.
  intros H. induction base as [|c base IH]; [exact H |].
  simpl. now rewrite IH.
Qed.

(** X8: [filepath.Ext] of a name ending in a dot followed by bytes that
    are neither dots nor slashes is that final dot and what follows it,
    whatever precedes: the platform is chosen from the last extension only,
    and dots or directories earlier in the name play no part. *)
Theorem Ext_last_extension (base e : string) :
  strings.Contains e "." = false -> strings.Contains e "/" = false ->
  filepath.Ext (base +:+ String "."%char e) = String "."%char e.
Proof.
  intros Hd Hs. unfold filepath.Ext.
  rewrite (extScan_app base (String "."%char e) (String "."%char e)); [reflexivity |].
  simpl. now rewrite (extScan_none e Hd Hs).
Qed.

Lemma Ext_last_extension_witness :
  filepath.Ext ("builds/v1.2/app.release" +:+ ".ipa") = ".ipa".
Proof. apply (Ext_last_extension "builds/v1.2/app.release" "ipa"); reflexivity. Defined.

(** ** Icon and label of the Android package *)

Lemma result_emit_bind {A : Type} (e : event) (k : Go A) :
  result (_ ← emit e; k) = result k.
Proof. now rewrite emit_bind. Qed.

Lemma parseApkIconAndLabel_unfold (W : World) (name : string) :
  parseApkIconAndLabel W name =
  (_ ← emit (EvApkOpenFile name);
   match apk_OpenFile W name with
   | inl err => mret (None, EmptyString, Some err)
   | inr pkg =>
       _ ← emit EvApkIcon;
       match apk.IconAt pkg 720 with
       | None => mret (None, EmptyString, Some ErrIconNotFound)
       | Some icon =>
           _ ← emit EvApkLabel;
           _ ← emit (EvExec "aapt");
           label ← labelFromBadging
                     (exec_Output W "aapt" ["dump"; "badging"; name])
                     (apk.Label pkg);
           mret (Some icon, label, None)
       end
   end).
Proof. reflexivity. Qed.

(** X9: whenever [parseApkIconAndLabel] returns, it returns either an
    image with no error, or an error with a nil image and an empty label;
    a label is never returned without an icon. *)
Theorem parseApkIconAndLabel_outcome (W : World) (name : string)
    (icon : option image) (label : string) (err : option error) :
  result (parseApkIconAndLabel W name) = Returns (icon, label, err) ->
  (is_Some icon /\ err = None) \/
  (icon = None /\ label = EmptyString /\ is_Some err).
Proof.
  rewrite parseApkIconAndLabel_unfold, result_emit_bind.
  destruct (apk_OpenFile W name) as [e|pkg].
  - intros H. injection H as <- <- <-. right. eauto.
  - rewrite result_emit_bind.
    destruct (apk.IconAt pkg 720) as [img|].
    + rewrite !result_emit_bind, result_bind.
      destruct (result (labelFromBadging _ _)) as [l|p]; [| discriminate].
      intros H. injection H as <- <- <-. left. eauto.
    + intros H. injection H as <- <- <-. right. eauto.
Qed.

Lemma parseApkIconAndLabel_outcome_witness :
  (is_Some (Some sampleImage) /\ (None : option error) = None) \/
  (Some sampleImage = None /\ "Hello World" = EmptyString /\ is_Some (None : option error)).
Proof.
  apply (parseApkIconAndLabel_outcome
           (helloApkWorld [helloManifestEntry; helloDex] (inr helloManifest)
              badgingComplete) "app.apk").
  vm_compute. reflexivity.
Defined.

(** When the package opens, the icon resolves and the badging tool
    prints nothing (it is not installed, or it fails), the label is the one
    of the resource table and the four steps run in order. *)
Theorem parseApkIconAndLabel_silent_tool (W : World) (name : string)
    (pkg : apk.Apk) (icon : image) :
  apk_OpenFile W name = inr pkg ->
  apk.IconAt pkg 720 = Some icon ->
  exec_Output W "aapt" ["dump"; "badging"; name] = [] ->
  parseApkIconAndLabel W name =
    ([EvApkOpenFile name; EvApkIcon; EvApkLabel; EvExec "aapt"],
     Returns (Some icon, apk.Label pkg, None)).
Proof.
  intros Hpkg Hicon Hout.
  rewrite parseApkIconAndLabel_unfold, Hpkg, Hicon, Hout. reflexivity.
Qed.

Lemma parseApkIconAndLabel_silent_tool_witness :
  parseApkIconAndLabel noManifestWorld "app.apk" =
    ([EvApkOpenFile "app.apk"; EvApkIcon; EvApkLabel; EvExec "aapt"],
     Returns (Some sampleImage, "HelloWorld", None)).
Proof.
  apply (parseApkIconAndLabel_silent_tool noManifestWorld "app.apk" helloApk sampleImage);
    reflexivity.
Defined.

(** X10: when the package opens and the icon resolves, every non-empty
    report of the badging tool in which [launchable-activity] does not
    occur makes [parseApkIconAndLabel] panic with an index out of range:
    the slice indexed at 1 has one element. *)
Theorem parseApkIconAndLabel_no_launcher_section (W : World) (name : string)
    (pkg : apk.Apk) (icon : image) :
  apk_OpenFile W name = inr pkg ->
  apk.IconAt pkg 720 = Some icon ->
  exec_Output W "aapt" ["dump"; "badging"; name] <> [] ->
  strings.Contains
    (string_of_list_byte (exec_Output W "aapt" ["dump"; "badging"; name]))
    "launchable-activity" = false ->
  parseApkIconAndLabel W name =
    ([EvApkOpenFile name; EvApkIcon; EvApkLabel; EvExec "aapt"],
     Panics IndexOutOfRange).
Proof.
  intros Hpkg Hicon Hout Habsent.
  rewrite parseApkIconAndLabel_unfold, Hpkg, Hicon.
  unfold labelFromBadging.
  destruct (exec_Output W "aapt" ["dump"; "badging"; name]) as [|b resp] eqn:E;
    [contradiction |].
  unfold strings.Split. rewrite (splitFrom_absent _ _ Habsent). reflexivity.
Qed.

Lemma parseApkIconAndLabel_no_launcher_section_witness :
  parseApkIconAndLabel
    (helloApkWorld [helloManifestEntry; helloDex] (inr helloManifest)
       badgingWithoutLauncher) "app.apk" =
    ([EvApkOpenFile "app.apk"; EvApkIcon; EvApkLabel; EvExec "aapt"],
     Panics IndexOutOfRange).
Proof.
  apply (parseApkIconAndLabel_no_launcher_section
           (helloApkWorld [helloManifestEntry; helloDex] (inr helloManifest)
              badgingWithoutLauncher) "app.apk" helloApk sampleImage);
    try reflexivity; vm_compute; discriminate.
Defined.

(** ** The Android manifest *)

Lemma parseApkFile_unfold (W : World) (f : zip.File) (rc : zip.ReadCloser)
    (xmlContent : list byte) (m : androidManifest) :
  zip.Open f = inr rc ->
  zip.rcErr rc = None ->
  androidbinary_NewXMLFile W (zip.rcData rc) = inr xmlContent ->
  xml_Decode W xmlContent = inr m ->
  parseApkFile W (Some f) =
    ([EvEntryOpen (zip.Name f); EvReadAll; EvNewXMLFile; EvXmlDecode],
     Returns
       (Some
          (fold_left
             (fun info act =>
                if existsb isLauncher (Filter act)
                then set_LanchActivity (activityName act) info
                else info)
             (manifestActivities m)
             (set_VersionName (manifestVersionName m)
                (set_VersionCode (manifestVersionCode m)
                   (set_SDKTargetVersion (Target (SDKVersion m))
                      (set_SDKMinVersion (Min (SDKVersion m))
                         (set_Build (manifestVersionCode m)
                            (set_Version (manifestVersionName m)
                               (set_PackageName (Package m) new_appInfo)))))))),
        None)).
Proof.
  intros Hopen Herr Hxml Hdec.
  unfold parseApkFile, parseAndroidManifest, ReadAll. simpl.
  rewrite Hopen. simpl. rewrite Herr. simpl. rewrite Hxml. simpl.
  rewrite Hdec. reflexivity.
Qed.

Lemma launcher_fold (acts : list activity) (info : appInfo) :
  fold_left
    (fun info act =>
       if existsb isLauncher (Filter act)
       then set_LanchActivity (activityName act) info
       else info) acts info =
  set_LanchActivity
    match List.find hasLauncherFilter (List.rev acts) with
    | Some a => activityName a
    | None => LanchActivity info
    end info.
Proof.
  revert info. induction acts as [|a acts IH]; intros info.
  - destruct info. reflexivity.
  - simpl fold_left. rewrite IH. simpl List.rev. rewrite find_snoc.
    destruct (List.find hasLauncherFilter (List.rev acts)) as [b|].
    + destruct (existsb isLauncher (Filter a)); reflexivity.
    + unfold hasLauncherFilter.
      destruct (existsb isLauncher (Filter a)); reflexivity.
Qed.

(** X11: for every manifest entry that opens, reads and decodes,
    [parseApkFile] returns a record whose [PackageName], [Version] and
    [Build] are the manifest's [package], [versionName] and [versionCode],
    with [VersionName]/[VersionCode] repeating them and the SDK versions
    copied; name, icon, encoded icon and size are left at their zero
    values for the caller to fill. *)
Theorem parseApkFile_fields (W : World) (f : zip.File) (rc : zip.ReadCloser)
    (xmlContent : list byte) (m : androidManifest) :
  zip.Open f = inr rc ->
  zip.rcErr rc = None ->
  androidbinary_NewXMLFile W (zip.rcData rc) = inr xmlContent ->
  xml_Decode W xmlContent = inr m ->
  exists info,
    result (parseApkFile W (Some f)) = Returns (Some info, None) /\
    PackageName info = Package m /\
    Version info = manifestVersionName m /\
    Build info = manifestVersionCode m /\
    VersionName info = manifestVersionName m /\
    VersionCode info = manifestVersionCode m /\
    SDKMinVersion info = Min (SDKVersion m) /\
    SDKTargetVersion info = Target (SDKVersion m) /\
    Name info = EmptyString /\ Icon info = None /\
    Base64 info = EmptyString /\ Size info = 0%Z.
Proof.
  intros Hopen Herr Hxml Hdec.
  rewrite (parseApkFile_unfold W f rc xmlContent m Hopen Herr Hxml Hdec).
  eexists. split; [reflexivity |].
  rewrite launcher_fold. repeat split.
Qed.

Lemma parseApkFile_fields_witness :
  exists info,
    result (parseApkFile
              (helloApkWorld [helloManifestEntry] (inr helloManifest) EmptyString)
              (Some helloManifestEntry)) = Returns (Some info, None) /\
    PackageName info = "com.example.helloworld" /\
    Version info = "1.0" /\ Build info = "1" /\
    VersionName info = "1.0" /\ VersionCode info = "1" /\
    SDKMinVersion info = 14%Z /\ SDKTargetVersion info = 19%Z /\
    Name info = EmptyString /\ Icon info = None /\
    Base64 info = EmptyString /\ Size info = 0%Z.
Proof.
  apply (parseApkFile_fields
           (helloApkWorld [helloManifestEntry] (inr helloManifest) EmptyString)
           helloManifestEntry
           (zip.mkReadCloser (bytesOf "binary-xml") None)
           (bytesOf "binary-xml") helloManifest); reflexivity.
Defined.

(** X12: the launcher activity recorded by [parseApkFile] is the last
    activity, in document order, that has an [intent-filter] whose action
    is [MAIN] and whose category is [LAUNCHER]; it is empty when there is
    none.  (The [break] leaves the loop over the filters only.) *)
Theorem parseApkFile_launcher (W : World) (f : zip.File) (rc : zip.ReadCloser)
    (xmlContent : list byte) (m : androidManifest) :
  zip.Open f = inr rc ->
  zip.rcErr rc = None ->
  androidbinary_NewXMLFile W (zip.rcData rc) = inr xmlContent ->
  xml_Decode W xmlContent = inr m ->
  exists info,
    result (parseApkFile W (Some f)) = Returns (Some info, None) /\
    LanchActivity info =
      match List.find hasLauncherFilter (List.rev (manifestActivities m)) with
      | Some a => activityName a
      | None => EmptyString
      end.
Proof.
  intros Hopen Herr Hxml Hdec.
  rewrite (parseApkFile_unfold W f rc xmlContent m Hopen Herr Hxml Hdec).
  eexists. split; [reflexivity |].
  rewrite launcher_fold. reflexivity.
Qed.

Lemma parseApkFile_launcher_witness :
  exists info,
    result (parseApkFile
              (helloApkWorld [helloManifestEntry] (inr twoLauncherManifest) EmptyString)
              (Some helloManifestEntry)) = Returns (Some info, None) /\
    LanchActivity info = "com.example.two.Second".
Proof.
  apply (parseApkFile_launcher
           (helloApkWorld [helloManifestEntry] (inr twoLauncherManifest) EmptyString)
           helloManifestEntry
           (zip.mkReadCloser (bytesOf "binary-xml") None)
           (bytesOf "binary-xml") twoLauncherManifest); reflexivity.
Defined.

(** X13: [parseApkFile] never panics, and it returns either a record
    with no error or an error with no record, whatever the entry and the
    collaborators do. *)
Theorem parseApkFile_outcome (W : World) (xmlFile : option zip.File) :
  exists t,
    (exists info, parseApkFile W xmlFile = (t, Returns (Some info, None))) \/
    (exists err, parseApkFile W xmlFile = (t, Returns (None, Some err))).
Proof.
  destruct xmlFile as [f|]; [| eexists; right; eexists; reflexivity].
  unfold parseApkFile, parseAndroidManifest, ReadAll. simpl.
  destruct (zip.Open f) as [e|rc]; simpl;
    [eexists; right; eexists; reflexivity |].
  destruct (zip.rcErr rc); simpl; [eexists; right; eexists; reflexivity |].
  destruct (androidbinary_NewXMLFile W (zip.rcData rc)); simpl;
    [eexists; right; eexists; reflexivity |].
  destruct (xml_Decode W l); simpl;
    [eexists; right; eexists; reflexivity |].
  eexists; left; eexists; reflexivity.
Qed.

(** ** The property list *)

Lemma iconFilesLoop_allStrings (items : list plistValue) (info : appInfo) :
  iconFilesLoop items info =
  match allStrings items with
  | Some names => ([], Returns (fold_left (fun i s => set_IconFileName s i) names info))
  | None => ([], Panics BadTypeAssertion)
  end.
Proof.
  revert info. induction items as [|v items IH]; intros info; [reflexivity |].
  destruct v; try reflexivity.
  simpl. rewrite IH. destruct (allStrings items); reflexivity.
Qed.

Lemma fold_set_IconFileName (names : list string) (info : appInfo) :
  fold_left (fun i s => set_IconFileName s i) names info =
  set_IconFileName (List.last names (IconFileName info)) info.
Proof.
  revert info. induction names as [|s names IH]; intros info.
  - destruct info. reflexivity.
  - simpl fold_left. rewrite IH.
    destruct names as [|s' names]; [reflexivity |].
    change (List.last (s :: s' :: names) (IconFileName info))
      with (List.last (s' :: names) (IconFileName info)).
    rewrite (last_cons_default s' names _ (IconFileName info)). reflexivity.
Qed.

Lemma readPlist_inr (W : World) (f : zip.File) (p : iosPlist) :
  readPlist W f = inr p ->
  exists rc, zip.Open f = inr rc /\ zip.rcErr rc = None /\
             plist_Decode W (zip.rcData rc) = inr p.
Proof.
  unfold readPlist. destruct (zip.Open f) as [e|rc]; [discriminate |].
  destruct (zip.rcErr rc) eqn:E; [discriminate |].
  intros H. exists rc. auto.
Qed.

(** X14: when the entry cannot be opened, cannot be read to its end, or
    does not decode as a property list, [parseIpaFile] returns that error
    and no record, and does not panic. *)
Theorem parseIpaFile_read_error (W : World) (f : zip.File) (err : error) :
  readPlist W f = inl err ->
  result (parseIpaFile W (Some f)) = Returns (None, Some err).
Proof.
  unfold readPlist, parseIpaFile, ReadAll.
  rewrite result_emit_bind.
  destruct (zip.Open f) as [e|rc];
    [intros H; injection H as ->; reflexivity |].
  rewrite result_emit_bind.
  destruct (zip.rcErr rc) as [e|];
    [intros H; injection H as ->; reflexivity |].
  rewrite result_emit_bind. intros ->. reflexivity.
Qed.

Lemma parseIpaFile_read_error_witness :
  result (parseIpaFile (helloIpaWorld ∅) (Some truncatedPlist)) =
  Returns (None, Some (libError "io" "unexpected EOF")).
Proof. apply parseIpaFile_read_error. reflexivity. Defined.

(** X15: on a property list that decodes, [parseIpaFile] panics exactly
    when [CFBundleIcons] has a [CFBundlePrimaryIcon] whose
    [CFBundleIconFiles] is missing, is not a sequence, or holds an element
    that is not a string; in every other case it returns. *)
Theorem parseIpaFile_panics_iff (W : World) (f : zip.File) (p : iosPlist) :
  readPlist W f = inr p ->
  ((exists pn, result (parseIpaFile W (Some f)) = Panics pn) <->
   exists primary,
     CFBundleIcons p !! "CFBundlePrimaryIcon" = Some primary /\
     match primary !! "CFBundleIconFiles" with
     | Some (PArray items) => allStrings items = None
     | _ => True
     end).
Proof.
  intros Hread. apply readPlist_inr in Hread as (rc & Hopen & Herr & Hdec).
  rewrite (parseIpaFile_decoded W f rc p Hopen Herr Hdec).
  rewrite !result_emit_bind, result_bind. unfold ipaIconNavigation.
  destruct (CFBundleIcons p !! "CFBundlePrimaryIcon") as [primary|].
  - assert (R : (exists primary0 : gmap string plistValue,
                   Some primary = Some primary0 /\
                   match primary0 !! "CFBundleIconFiles" with
                   | Some (PArray items) => allStrings items = None
                   | _ => True
                   end) <->
                match primary !! "CFBundleIconFiles" with
                | Some (PArray items) => allStrings items = None
                | _ => True
                end).
    { split; [intros (x & E & H); injection E as <-; exact H | eauto]. }
    rewrite R. clear R.
    destruct (primary !! "CFBundleIconFiles") as [v|].
    + destruct v;
        try (split; [intros _; exact I | intros _; eexists; reflexivity]).
      rewrite iconFilesLoop_allStrings.
      destruct (allStrings items) as [names|].
      * split; [intros [pn H]; discriminate | discriminate].
      * split; [reflexivity | intros _; eexists; reflexivity].
    + split; [intros _; exact I | intros _; eexists; reflexivity].
  - split; [intros [pn H]; discriminate | intros (pr & E & _); discriminate].
Qed.

Lemma parseIpaFile_panics_iff_witness :
  (exists pn, result (parseIpaFile (helloIpaWorld iconFilesNotStrings)
                        (Some helloInfoPlist)) = Panics pn) <->
  exists primary,
    CFBundleIcons (helloPlist iconFilesNotStrings) !! "CFBundlePrimaryIcon" = Some primary /\
    match primary !! "CFBundleIconFiles" with
    | Some (PArray items) => allStrings items = None
    | _ => True
    end.
Proof.
  apply (parseIpaFile_panics_iff (helloIpaWorld iconFilesNotStrings) helloInfoPlist
           (helloPlist iconFilesNotStrings)).
  reflexivity.
Defined.

(** X16: every record returned by [parseIpaFile] for a decoded property
    list carries no error and has: [Name] the display name, or the bundle
    name when the display name is empty; [PackageName] the bundle
    identifier; [Version] and [VersionName] the short version string;
    [VersionCode] the bundle version; [LanchActivity] the executable; and
    icon, encoded icon and size still at their zero values. *)
Theorem parseIpaFile_fields (W : World) (f : zip.File) (p : iosPlist)
    (info : option appInfo) (err : option error) :
  readPlist W f = inr p ->
  result (parseIpaFile W (Some f)) = Returns (info, err) ->
  err = None /\
  exists i,
    info = Some i /\
    Name i = (if String.eqb (CFBundleDisplayName p) EmptyString
              then CFBundleName p else CFBundleDisplayName p) /\
    PackageName i = CFBundleIdentifier p /\
    Version i = CFBundleShortVersion p /\
    VersionName i = CFBundleShortVersion p /\
    VersionCode i = CFBundleVersion p /\
    LanchActivity i = CFBundleExecutable p /\
    Icon i = None /\ Base64 i = EmptyString /\ Size i = 0%Z.
Proof.
  intros Hread. apply readPlist_inr in Hread as (rc & Hopen & Herr & Hdec).
  rewrite (parseIpaFile_decoded W f rc p Hopen Herr Hdec).
  rewrite !result_emit_bind, result_bind.
  assert (Hplain : forall n,
    let i := set_IconFileName n (ipaPlainFields p) in
    Name i = (if String.eqb (CFBundleDisplayName p) EmptyString
              then CFBundleName p else CFBundleDisplayName p) /\
    PackageName i = CFBundleIdentifier p /\
    Version i = CFBundleShortVersion p /\
    VersionName i = CFBundleShortVersion p /\
    VersionCode i = CFBundleVersion p /\
    LanchActivity i = CFBundleExecutable p /\
    Icon i = None /\ Base64 i = EmptyString /\ Size i = 0%Z).
  { intros n. unfold ipaPlainFields.
    destruct (String.eqb (CFBundleDisplayName p) EmptyString); repeat split. }
  unfold ipaIconNavigation.
  destruct (CFBundleIcons p !! "CFBundlePrimaryIcon") as [primary|].
  - destruct (primary !! "CFBundleIconFiles") as [[]|]; try discriminate.
    rewrite iconFilesLoop_allStrings.
    destruct (allStrings items) as [names|]; [| discriminate].
    rewrite fold_set_IconFileName.
    intros H. injection H as <- <-. split; [reflexivity |].
    eexists. split; [reflexivity | apply Hplain].
  - intros H. injection H as <- <-. split; [reflexivity |].
    exists (ipaPlainFields p). split; [reflexivity |].
    specialize (Hplain (IconFileName (ipaPlainFields p))).
    replace (set_IconFileName (IconFileName (ipaPlainFields p)) (ipaPlainFields p))
      with (ipaPlainFields p) in Hplain by (destruct (ipaPlainFields p); reflexivity).
    exact Hplain.
Qed.

Lemma parseIpaFile_fields_witness :
  exists info err,
    result (parseIpaFile (helloIpaWorld twoIconFiles) (Some helloInfoPlist)) =
      Returns (info, err) /\
    err = None /\
    exists i,
      info = Some i /\
      Name i = "HelloWorld" /\
      PackageName i = "com.kthcorp.helloworld" /\
      Version i = "1.0" /\ VersionName i = "1.0" /\ VersionCode i = "1.0" /\
      LanchActivity i = "HelloWorld" /\
      Icon i = None /\ Base64 i = EmptyString /\ Size i = 0%Z.
Proof.
  do 2 eexists. split; [vm_compute; reflexivity |].
  apply (parseIpaFile_fields (helloIpaWorld twoIconFiles) helloInfoPlist
           (helloPlist twoIconFiles)); [reflexivity | vm_compute; reflexivity].
Defined.

(** ** The choice of the iOS icon entry *)

Lemma iconScanLoop_result (iconFileName : string) (files : list zip.File)
    (cur : option zip.File) :
  result (iconScanLoop iconFileName files cur) =
  Returns
    match List.find (fun f => strings.Contains (zip.Name f) iconFileName)
            (List.rev files) with
    | Some f => Some f
    | None => cur
    end.
Proof.
  revert cur. induction files as [|f files IH]; intros cur; [reflexivity |].
  cbn [iconScanLoop]. rewrite result_emit_bind. cbn [List.rev]. rewrite find_snoc.
  destruct (strings.Contains (zip.Name f) iconFileName).
  - rewrite result_emit_bind, IH.
    destruct (List.find _ (List.rev files)); reflexivity.
  - rewrite IH. destruct (List.find _ (List.rev files)); reflexivity.
Qed.

(** X17: the second loop of the iOS path never panics and ends with the
    last entry of the container whose name contains the icon file name;
    only when no entry does is the candidate of the classification pass
    kept. *)
Theorem iconScanLoop_last_match (iconFileName : string) (files : list zip.File) :
  result (iconScanLoop iconFileName files (iosIconFile (classified files))) =
  Returns (selectedIcon iconFileName files).
Proof. apply iconScanLoop_result. Qed.

Lemma Contains_empty (s : string) : strings.Contains s EmptyString = true.
Proof. destruct s; reflexivity. Qed.

(** X18: with an empty icon file name every entry matches, so the loop
    ends with the last entry of the container, whatever it is, and the
    candidate is kept only for an empty container. *)
Theorem iconScanLoop_empty_name (files : list zip.File) (cur : option zip.File) :
  result (iconScanLoop EmptyString files cur) =
  Returns match List.rev files with
          | f :: _ => Some f
          | [] => cur
          end.
Proof.
  rewrite iconScanLoop_result.
  destruct (List.rev files) as [|f l]; [reflexivity |].
  simpl. rewrite Contains_empty. reflexivity.
Qed.

(** ** The dispatcher *)

Lemma openContainer_inr (W : World) (name : string) (stat : FileInfo)
    (files : list zip.File) :
  openContainer W name = inr (stat, files) ->
  exists file, os_Open W name = inr file /\ Stat file = inr stat /\
               zipNewReader file = inr files.
Proof.
  unfold openContainer. destruct (os_Open W name) as [e|file]; [discriminate |].
  destruct (Stat file) as [e|st] eqn:Es; [discriminate |].
  destruct (zipNewReader file) as [e|fs] eqn:Ez; [discriminate |].
  intros H. injection H as <- <-. eauto.
Qed.

(** X19: when the file cannot be opened, its status cannot be read, or it
    is not a zip container, [NewAppParser] returns that error and no record;
    no entry is classified, opened or read and no decoder is called. *)
Theorem NewAppParser_container_error (W : World) (name : string) (err : error) :
  openContainer W name = inl err ->
  result (NewAppParser W name) = Returns (None, Some err) /\
  existsb isEntryEvent (trace (NewAppParser W name)) = false /\
  existsb isDecodeEvent (trace (NewAppParser W name)) = false.
Proof.
  unfold openContainer, NewAppParser.
  destruct (os_Open W name) as [e|file].
  - intros H. injection H as ->. repeat split.
  - destruct (Stat file) as [e|stat].
    + intros H. injection H as ->. repeat split.
    + destruct (zipNewReader file) as [e|files]; [| discriminate].
      intros H. injection H as ->. repeat split.
Qed.

Lemma NewAppParser_container_error_witness :
  result (NewAppParser notesWorld "notes.docx") =
    Returns (None, Some (libError "zip" "zip: not a valid zip file")) /\
  existsb isEntryEvent (trace (NewAppParser notesWorld "notes.docx")) = false /\
  existsb isDecodeEvent (trace (NewAppParser notesWorld "notes.docx")) = false.
Proof. apply NewAppParser_container_error. reflexivity. Defined.

(** The result of the iOS branch in terms of its three steps. *)
Lemma NewAppParser_ios_result (W : World) (name : string) (stat : FileInfo)
    (files : list zip.File) :
  openContainer W name = inr (stat, files) ->
  filepath.Ext (statName stat) = ".ipa" \/ filepath.Ext (statName stat) = ".zip" ->
  result (NewAppParser W name) =
  match result (parseIpaFile W (plistFile (classified files))) with
  | Panics p => Panics p
  | Returns (_, Some e) => Returns (None, Some e)
  | Returns (None, None) => Panics NilDereference
  | Returns (Some i, None) =>
      match result (parseIpaIcon W (selectedIcon (IconFileName i) files)) with
      | Panics p => Panics p
      | Returns (_, Some _) => Returns (Some i, None)
      | Returns (None, None) => Panics NilDereference
      | Returns (Some img, None) =>
          Returns
            (Some (set_Size (statSize stat)
                     (set_Base64 (base64_EncodeToString W (png_Encode W img))
                        (set_Icon (Some img) i))), None)
      end
  end.
Proof.
  intros Hc Hext. apply openContainer_inr in Hc as (file & Ho & Hs & Hz).
  unfold NewAppParser. rewrite Ho, Hs, Hz.
  rewrite !result_emit_bind, result_bind, classifyLoop_spec.
  cbn [result snd]. fold (classified files).
  assert (Hd : (String.eqb (filepath.Ext (statName stat)) androidExt = false) /\
               (String.eqb (filepath.Ext (statName stat)) iosExt
                || String.eqb (filepath.Ext (statName stat)) ".zip" = true)).
  { destruct Hext as [-> | ->]; split; reflexivity. }
  destruct Hd as [-> ->].
  rewrite result_bind.
  destruct (result (parseIpaFile W (plistFile (classified files))))
    as [[[i|] [e|]]|p];
    try (rewrite result_emit_bind; reflexivity); try reflexivity.
  rewrite result_bind. cbn [deref result snd mret Go_ret].
  rewrite result_bind, iconScanLoop_result, result_bind.
  fold (selectedIcon (IconFileName i) files).
  destruct (result (parseIpaIcon W (selectedIcon (IconFileName i) files)))
    as [[[img|] [e|]]|p];
    try (rewrite result_emit_bind; reflexivity); try reflexivity.
Qed.

Lemma plistFile_none (files : list zip.File) :
  forallb (fun f => negb (strings.Contains (zip.Name f) "Info.plist")) files = true ->
  plistFile (classified files) = None.
Proof.
  intros H. change (getSlot SlotPlist (classified files) = None).
  unfold classified. rewrite getSlot_fold.
  destruct (List.find (qualifies SlotPlist) (List.rev files)) as [f|] eqn:F;
    [| reflexivity].
  apply List.find_some in F as [Hin Hq]. apply List.in_rev in Hin.
  apply qualifies_names in Hq as [Hq _].
  rewrite forallb_forall in H. specialize (H f Hin).
  rewrite Hq in H. discriminate.
Qed.

(** X20: on a container named [.ipa] or [.zip] in which no entry name
    contains [Info.plist], [NewAppParser] returns the error
    [not zip file, info.plist is not found] and no record. *)
Theorem NewAppParser_ios_no_plist (W : World) (name : string) (stat : FileInfo)
    (files : list zip.File) :
  openContainer W name = inr (stat, files) ->
  filepath.Ext (statName stat) = ".ipa" \/ filepath.Ext (statName stat) = ".zip" ->
  forallb (fun f => negb (strings.Contains (zip.Name f) "Info.plist")) files = true ->
  result (NewAppParser W name) = Returns (None, Some ErrPlistNotFound).
Proof.
  intros Hc Hext Hnone.
  rewrite (NewAppParser_ios_result W name stat files Hc Hext).
  rewrite (plistFile_none files Hnone). reflexivity.
Qed.

Lemma NewAppParser_ios_no_plist_witness :
  result (NewAppParser
            (worldWith "bundle.zip" (archive "bundle.zip" 512 [helloIcon; helloPkgInfo])
               (inl (libError "androidbinary" "invalid chunk"))
               (inr (helloPlist ∅))
               (inl (libError "apk" "no resources")) EmptyString) "bundle.zip") =
  Returns (None, Some ErrPlistNotFound).
Proof.
  apply (NewAppParser_ios_no_plist _ "bundle.zip" (mkFileInfo "bundle.zip" 512)
           [helloIcon; helloPkgInfo]);
    [reflexivity | right; reflexivity | vm_compute; reflexivity].
Defined.

(** X21: on the iOS path, when the selected property-list entry cannot be
    opened, read or decoded, [NewAppParser] returns that error and no
    record; the record is not built from what could be read. *)
Theorem NewAppParser_ios_plist_error (W : World) (name : string) (stat : FileInfo)
    (files : list zip.File) (f : zip.File) (err : error) :
  openContainer W name = inr (stat, files) ->
  filepath.Ext (statName stat) = ".ipa" \/ filepath.Ext (statName stat) = ".zip" ->
  plistFile (classified files) = Some f ->
  readPlist W f = inl err ->
  result (NewAppParser W name) = Returns (None, Some err).
Proof.
  intros Hc Hext Hslot Hread.
  rewrite (NewAppParser_ios_result W name stat files Hc Hext), Hslot.
  assert (Hp : result (parseIpaFile W (Some f)) = Returns (None, Some err)).
  { unfold readPlist in Hread. unfold parseIpaFile, ReadAll.
    rewrite result_emit_bind.
    destruct (zip.Open f) as [e|rc];
      [injection Hread as ->; reflexivity |].
    rewrite result_emit_bind.
    destruct (zip.rcErr rc) as [e|];
      [injection Hread as ->; reflexivity |].
    rewrite result_emit_bind, Hread. reflexivity. }
  rewrite Hp. reflexivity.
Qed.

Lemma NewAppParser_ios_plist_error_witness :
  result (NewAppParser
            (worldWith "app.ipa" (archive "app.ipa" 512 [truncatedPlist; helloIcon])
               (inl (libError "androidbinary" "invalid chunk"))
               (inr (helloPlist ∅))
               (inl (libError "apk" "no resources")) EmptyString) "app.ipa") =
  Returns (None, Some (libError "io" "unexpected EOF")).
Proof.
  apply (NewAppParser_ios_plist_error _ "app.ipa" (mkFileInfo "app.ipa" 512)
           [truncatedPlist; helloIcon] truncatedPlist);
    [reflexivity | left; reflexivity | vm_compute; reflexivity | reflexivity].
Defined.

(** X22: on the iOS path, when the property list yields a record and the
    icon step returns an error, [NewAppParser] returns exactly the record
    [parseIpaFile] built, with no error: the icon and its encoding are
    absent, and the size of the archive is not recorded either. *)
Theorem NewAppParser_ios_icon_error (W : World) (name : string) (stat : FileInfo)
    (files : list zip.File) (i : appInfo) (icon : option image) (err : error) :
  openContainer W name = inr (stat, files) ->
  filepath.Ext (statName stat) = ".ipa" \/ filepath.Ext (statName stat) = ".zip" ->
  result (parseIpaFile W (plistFile (classified files))) = Returns (Some i, None) ->
  result (parseIpaIcon W (selectedIcon (IconFileName i) files)) = Returns (icon, Some err) ->
  result (NewAppParser W name) = Returns (Some i, None).
Proof.
  intros Hc Hext Hp Hi.
  rewrite (NewAppParser_ios_result W name stat files Hc Hext), Hp, Hi.
  destruct icon; reflexivity.
Qed.

(** X23: on the iOS path, when the property list yields a record and the
    icon decodes, the record returned is that record with [Icon] set to the
    image, [Base64] to the base64 text of its PNG encoding, and [Size] to
    the size of the archive. *)
Theorem NewAppParser_ios_success (W : World) (name : string) (stat : FileInfo)
    (files : list zip.File) (i : appInfo) (img : image) :
  openContainer W name = inr (stat, files) ->
  filepath.Ext (statName stat) = ".ipa" \/ filepath.Ext (statName stat) = ".zip" ->
  result (parseIpaFile W (plistFile (classified files))) = Returns (Some i, None) ->
  result (parseIpaIcon W (selectedIcon (IconFileName i) files)) = Returns (Some img, None) ->
  result (NewAppParser W name) =
    Returns
      (Some (set_Size (statSize stat)
               (set_Base64 (base64_EncodeToString W (png_Encode W img))
                  (set_Icon (Some img) i))), None).
Proof.
  intros Hc Hext Hp Hi.
  rewrite (NewAppParser_ios_result W name stat files Hc Hext), Hp, Hi.
  reflexivity.
Qed.

Lemma NewAppParser_ios_icon_error_witness :
  exists i,
    result (parseIpaFile iconlessIpaWorld (Some helloInfoPlist)) = Returns (Some i, None) /\
    result (NewAppParser iconlessIpaWorld "app.ipa") = Returns (Some i, None).
Proof.
  eexists. split; [vm_compute; reflexivity |].
  apply (NewAppParser_ios_icon_error iconlessIpaWorld "app.ipa"
           (mkFileInfo "app.ipa" 4096) [helloInfoPlist; helloPkgInfo] _ None
           ErrIconNotFound);
    [reflexivity | left; reflexivity | vm_compute; reflexivity
    | vm_compute; reflexivity].
Defined.

Lemma NewAppParser_ios_success_witness :
  exists i,
    result (parseIpaFile (helloIpaWorld twoIconFiles) (Some helloInfoPlist)) =
      Returns (Some i, None) /\
    result (NewAppParser (helloIpaWorld twoIconFiles) "app.ipa") =
      Returns (Some (set_Size 4096 (set_Base64 "UE5H" (set_Icon (Some sampleImage) i))),
               None).
Proof.
  eexists. split; [vm_compute; reflexivity |].
  apply (NewAppParser_ios_success (helloIpaWorld twoIconFiles) "app.ipa"
           (mkFileInfo "app.ipa" 4096) [helloInfoPlist; helloIcon; helloPkgInfo]
           _ sampleImage);
    [reflexivity | left; reflexivity | vm_compute; reflexivity
    | vm_compute; reflexivity].
Defined.

(** The result of the Android branch in terms of its two steps. *)
Lemma NewAppParser_apk_result (W : World) (name : string) (stat : FileInfo)
    (files : list zip.File) :
  openContainer W name = inr (stat, files) ->
  filepath.Ext (statName stat) = ".apk" ->
  result (NewAppParser W name) =
  match result (parseApkFile W (xmlFile (classified files))) with
  | Panics p => Panics p
  | Returns (info, _) =>
      match result (parseApkIconAndLabel W name) with
      | Panics p => Panics p
      | Returns (icon, label, err) =>
          match info with
          | None => Panics NilDereference
          | Some i =>
              let i := set_Size (statSize stat) (set_Name label i) in
              match err, icon with
              | None, Some img =>
                  Returns
                    (Some (set_Base64
                             (base64_EncodeToString W (png_Encode W img)) i),
                     None)
              | _, _ => Returns (Some i, None)
              end
          end
      end
  end.
Proof.
  intros Hc Hext. apply openContainer_inr in Hc as (file & Ho & Hs & Hz).
  unfold NewAppParser. rewrite Ho, Hs, Hz.
  rewrite !result_emit_bind, result_bind, classifyLoop_spec.
  cbn [result snd]. fold (classified files). rewrite Hext.
  change (String.eqb ".apk" androidExt) with true. cbv iota.
  rewrite result_bind.
  destruct (result (parseApkFile W (xmlFile (classified files))))
    as [[info e0]|p]; [| reflexivity].
  rewrite result_bind.
  destruct (result (parseApkIconAndLabel W name)) as [[[icon label] err]|p];
    [| reflexivity].
  rewrite result_bind.
  destruct err as [e|].
  - rewrite result_emit_bind. cbn [result snd mret Go_ret].
    rewrite result_bind. destruct info as [i|]; [| reflexivity].
    cbn [deref result snd mret Go_ret]. rewrite result_bind.
    destruct icon; reflexivity.
  - cbn [result snd mret Go_ret].
    rewrite result_bind. destruct info as [i|]; [| reflexivity].
    cbn [deref result snd mret Go_ret]. rewrite result_bind.
    destruct icon as [img|]; [rewrite result_emit_bind |]; reflexivity.
Qed.

Lemma parseApkIconAndLabel_error_shape (W : World) (name : string)
    (icon : option image) (label : string) (err : error) :
  result (parseApkIconAndLabel W name) = Returns (icon, label, Some err) ->
  icon = None /\ label = EmptyString.
Proof.
  rewrite parseApkIconAndLabel_unfold, result_emit_bind.
  destruct (apk_OpenFile W name) as [e|pkg].
  - intros H. injection H as <- <- _. auto.
  - rewrite result_emit_bind.
    destruct (apk.IconAt pkg 720) as [img|].
    + rewrite !result_emit_bind, result_bind.
      destruct (result (labelFromBadging _ _)); discriminate.
    + intros H. injection H as <- <- _. auto.
Qed.

(** X24: on the Android path, when the manifest yields a record and the
    icon and label step returns an error, [NewAppParser] returns the record
    with an empty [Name], the size of the archive in [Size], no encoded
    icon, and no error. *)
Theorem NewAppParser_apk_icon_error (W : World) (name : string) (stat : FileInfo)
    (files : list zip.File) (i : appInfo) (e0 : option error)
    (icon : option image) (label : string) (err : error) :
  openContainer W name = inr (stat, files) ->
  filepath.Ext (statName stat) = ".apk" ->
  result (parseApkFile W (xmlFile (classified files))) = Returns (Some i, e0) ->
  result (parseApkIconAndLabel W name) = Returns (icon, label, Some err) ->
  result (NewAppParser W name) =
    Returns (Some (set_Size (statSize stat) (set_Name EmptyString i)), None).
Proof.
  intros Hc Hext Hm Hi.
  rewrite (NewAppParser_apk_result W name stat files Hc Hext), Hm, Hi.
  apply parseApkIconAndLabel_error_shape in Hi as [-> ->]. reflexivity.
Qed.

(** X25: on the Android path, when the manifest yields a record and the
    icon and label step succeeds, the record returned has [Name] set to the
    label, [Size] to the size of the archive and [Base64] to the base64
    text of the PNG encoding of the icon; [Icon] itself stays nil. *)
Theorem NewAppParser_apk_success (W : World) (name : string) (stat : FileInfo)
    (files : list zip.File) (i : appInfo) (e0 : option error)
    (img : image) (label : string) :
  openContainer W name = inr (stat, files) ->
  filepath.Ext (statName stat) = ".apk" ->
  result (parseApkFile W (xmlFile (classified files))) = Returns (Some i, e0) ->
  result (parseApkIconAndLabel W name) = Returns (Some img, label, None) ->
  result (NewAppParser W name) =
    Returns
      (Some (set_Base64 (base64_EncodeToString W (png_Encode W img))
               (set_Size (statSize stat) (set_Name label i))), None) /\
  Icon (set_Base64 (base64_EncodeToString W (png_Encode W img))
          (set_Size (statSize stat) (set_Name label i))) = Icon i.
Proof.
  intros Hc Hext Hm Hi.
  rewrite (NewAppParser_apk_result W name stat files Hc Hext), Hm, Hi.
  split; reflexivity.
Qed.

Lemma NewAppParser_apk_icon_error_witness :
  exists i,
    result (parseApkFile noResourcesApkWorld (Some helloManifestEntry)) =
      Returns (Some i, None) /\
    result (NewAppParser noResourcesApkWorld "app.apk") =
      Returns (Some (set_Size 8192 (set_Name EmptyString i)), None).
Proof.
  eexists. split; [vm_compute; reflexivity |].
  apply (NewAppParser_apk_icon_error noResourcesApkWorld "app.apk"
           (mkFileInfo "app.apk" 8192) [helloManifestEntry; helloDex] _ None
           None EmptyString (libError "apk" "no resources"));
    [reflexivity | reflexivity | vm_compute; reflexivity | vm_compute; reflexivity].
Defined.

Lemma NewAppParser_apk_success_witness :
  exists i,
    result (parseApkFile completeApkWorld (Some helloManifestEntry)) =
      Returns (Some i, None) /\
    result (NewAppParser completeApkWorld "app.apk") =
      Returns (Some (set_Base64 "UE5H" (set_Size 8192 (set_Name "Hello World" i))),
               None) /\
    Icon (set_Base64 "UE5H" (set_Size 8192 (set_Name "Hello World" i))) = Icon i.
Proof.
  eexists. split; [vm_compute; reflexivity |].
  apply (NewAppParser_apk_success completeApkWorld "app.apk"
           (mkFileInfo "app.apk" 8192) [helloManifestEntry; helloDex] _ None
           sampleImage "Hello World");
    [reflexivity | reflexivity | vm_compute; reflexivity | vm_compute; reflexivity].
Defined.

(** X26: on the Android path, when the manifest is missing or does not
    yield a record, [NewAppParser] never returns: whatever the icon and
    label step does, the call ends in a panic. *)
Theorem NewAppParser_apk_no_record_panics (W : World) (name : string)
    (stat : FileInfo) (files : list zip.File) (err : option error) :
  openContainer W name = inr (stat, files) ->
  filepath.Ext (statName stat) = ".apk" ->
  result (parseApkFile W (xmlFile (classified files))) = Returns (None, err) ->
  exists p, result (NewAppParser W name) = Panics p.
Proof.
  intros Hc Hext Hm.
  rewrite (NewAppParser_apk_result W name stat files Hc Hext), Hm.
  destruct (result (parseApkIconAndLabel W name)) as [[[icon label] e]|p]; eauto.
Qed.

Lemma NewAppParser_apk_no_record_panics_witness :
  exists p, result (NewAppParser badManifestWorld "app.apk") = Panics p.
Proof.
  apply (NewAppParser_apk_no_record_panics badManifestWorld "app.apk"
           (mkFileInfo "app.apk" 8192) [helloManifestEntry; helloDex]
           (Some (libError "xml" "unexpected EOF")));
    [reflexivity | reflexivity | vm_compute; reflexivity].
Defined.

Lemma NewAppParser_other_result (W : World) (name : string) (stat : FileInfo)
    (files : list zip.File) :
  openContainer W name = inr (stat, files) ->
  String.eqb (filepath.Ext (statName stat)) androidExt = false ->
  String.eqb (filepath.Ext (statName stat)) iosExt
  || String.eqb (filepath.Ext (statName stat)) ".zip" = false ->
  result (NewAppParser W name) = Returns (None, Some ErrUnknownPlatform).
Proof.
  intros Hc Ha Hi. apply openContainer_inr in Hc as (file & Ho & Hs & Hz).
  unfold NewAppParser. rewrite Ho, Hs, Hz.
  rewrite !result_emit_bind, result_bind, classifyLoop_spec.
  cbn [result snd]. rewrite Ha, Hi. reflexivity.
Qed.

(** X27: whenever [NewAppParser] returns, it returns either a record and
    no error, or an error and no record; a record never comes with an
    error, and the two are never both nil. *)
Theorem NewAppParser_record_xor_error (W : World) (name : string)
    (info : option appInfo) (err : option error) :
  result (NewAppParser W name) = Returns (info, err) ->
  (is_Some info /\ err = None) \/ (info = None /\ is_Some err).
Proof.
  destruct (openContainer W name) as [e|[stat files]] eqn:Hc.
  - unfold openContainer in Hc. unfold NewAppParser.
    destruct (os_Open W name) as [e1|file];
      [intros H; injection H as <- <-; right; eauto |].
    destruct (Stat file) as [e2|stat];
      [intros H; injection H as <- <-; right; eauto |].
    destruct (zipNewReader file) as [e3|files]; [| discriminate].
    intros H. injection H as <- <-. right. eauto.
  - destruct (String.eqb (filepath.Ext (statName stat)) androidExt) eqn:Ha.
    + apply String.eqb_eq in Ha.
      rewrite (NewAppParser_apk_result W name stat files Hc Ha).
      destruct (result (parseApkFile _ _)) as [[i0 e0]|p]; [| discriminate].
      destruct (result (parseApkIconAndLabel _ _)) as [[[icon label] e]|p];
        [| discriminate].
      destruct i0 as [i|]; [| discriminate].
      destruct e, icon; intros H; injection H as <- <-; left; eauto.
    + destruct (String.eqb (filepath.Ext (statName stat)) iosExt
                || String.eqb (filepath.Ext (statName stat)) ".zip") eqn:Hi.
      * assert (Hext : filepath.Ext (statName stat) = ".ipa" \/
                       filepath.Ext (statName stat) = ".zip").
        { apply orb_true_iff in Hi as [Hi|Hi]; apply String.eqb_eq in Hi; auto. }
        rewrite (NewAppParser_ios_result W name stat files Hc Hext).
        destruct (result (parseIpaFile _ _)) as [[[i|] [e|]]|p];
          try discriminate;
          try (intros H; injection H as <- <-; right; eauto).
        destruct (result (parseIpaIcon _ _)) as [[[img|] [e|]]|p];
          try discriminate;
          intros H; injection H as <- <-; left; eauto.
      * rewrite (NewAppParser_other_result W name stat files Hc Ha Hi).
        intros H. injection H as <- <-. right. eauto.
Qed.

Lemma NewAppParser_record_xor_error_witness :
  (is_Some (None : option appInfo) /\ Some ErrUnknownPlatform = None) \/
  ((None : option appInfo) = None /\ is_Some (Some ErrUnknownPlatform)).
Proof.
  apply (NewAppParser_record_xor_error docxWorld "report.docx").
  vm_compute. reflexivity.
Defined.

(** ** The two decode paths do not mix *)

Lemma quiet_emit_bind {A : Type} (P : event -> bool) (e : event) (k : Go A) :
  P e = false -> quiet P k -> quiet P (_ ← emit e; k).
Proof. unfold quiet. rewrite emit_bind. cbn [trace fst existsb]. now intros ->. Qed.

Lemma quiet_bind {A B : Type} (P : event -> bool) (m : Go A) (f : A -> Go B) :
  quiet P m -> (forall a, quiet P (f a)) -> quiet P (m ≫= f).
Proof.
  unfold quiet. intros Hm Hf. rewrite trace_bind, existsb_app, Hm.
  destruct (result m); [apply Hf | reflexivity].
Qed.

Ltac quiet_step :=
  lazymatch goal with
  | |- quiet _ (mret _) => reflexivity
  | |- quiet _ (throw _) => reflexivity
  | |- quiet _ (mbind (fun _ => _) (emit _)) =>
      apply quiet_emit_bind; [reflexivity |]
  | |- quiet _ (mbind _ _) => apply quiet_bind; [| intros ?]
  | |- quiet _ (match ?x with _ => _ end) => destruct x
  end.

Lemma quiet_index {A : Type} (P : event -> bool) (s : list A) (i : nat) :
  quiet P (index s i).
Proof. unfold index. destruct (s !! i); reflexivity. Qed.

Lemma quiet_deref {A : Type} (P : event -> bool) (p : option A) :
  quiet P (deref p).
Proof. destruct p; reflexivity. Qed.

Lemma quiet_labelFromBadging (P : event -> bool) (resp : list byte) (label : string) :
  quiet P (labelFromBadging resp label).
Proof.
  unfold labelFromBadging.
  repeat first [apply quiet_index | quiet_step].
Qed.

Lemma quiet_classifyLoop (P : event -> bool) (files : list zip.File) (m : members) :
  (forall n, P (EvClassify n) = false) -> quiet P (classifyLoop files m).
Proof.
  intros HP. unfold quiet. rewrite classifyLoop_spec. cbn [trace fst].
  induction files as [|f files IH]; [reflexivity |].
  simpl. now rewrite HP.
Qed.

Lemma quiet_iconFilesLoop (P : event -> bool) (items : list plistValue) (info : appInfo) :
  quiet P (iconFilesLoop items info).
Proof.
  rewrite iconFilesLoop_allStrings. destruct (allStrings items); reflexivity.
Qed.

Lemma quiet_parseApkFile (xmlFile : option zip.File) (W : World) :
  quiet isIosEvent (parseApkFile W xmlFile).
Proof.
  unfold parseApkFile, parseAndroidManifest, ReadAll.
  repeat first [apply quiet_deref | quiet_step].
Qed.

Lemma quiet_parseApkIconAndLabel (W : World) (name : string) :
  quiet isIosEvent (parseApkIconAndLabel W name).
Proof.
  rewrite parseApkIconAndLabel_unfold.
  repeat first [apply quiet_labelFromBadging | quiet_step].
Qed.

Lemma quiet_parseIpaFile (W : World) (plistFile : option zip.File) :
  quiet isAndroidEvent (parseIpaFile W plistFile).
Proof.
  unfold parseIpaFile, ReadAll.
  repeat first [apply quiet_iconFilesLoop | quiet_step].
Qed.

Lemma quiet_parseIpaIcon (W : World) (iconFile : option zip.File) :
  quiet isAndroidEvent (parseIpaIcon W iconFile).
Proof. unfold parseIpaIcon. repeat quiet_step. Qed.

Lemma quiet_iconScanLoop (n : string) (files : list zip.File) (cur : option zip.File) :
  quiet isAndroidEvent (iconScanLoop n files cur).
Proof.
  revert cur. induction files as [|f files IH]; intros cur; [reflexivity |].
  cbn [iconScanLoop]. repeat first [apply IH | quiet_step].
Qed.

(** X28: one call of [NewAppParser] never mixes the two platforms: either
    no step of the Android path is run (binary-XML reading, manifest
    decoding, resource table, badging tool), or no step of the iOS path is
    (property-list decoding, icon-name scan, PNG de-optimization and
    decoding). *)
Theorem NewAppParser_paths_exclusive (W : World) (name : string) :
  quiet isAndroidEvent (NewAppParser W name) \/
  quiet isIosEvent (NewAppParser W name).
Proof.
  unfold NewAppParser.
  destruct (os_Open W name) as [e|file]; [left; reflexivity |].
  destruct (Stat file) as [e|stat]; [left; reflexivity |].
  destruct (zipNewReader file) as [e|files]; [left; reflexivity |].
  destruct (String.eqb (filepath.Ext (statName stat)) androidExt).
  - right.
    repeat first [ apply quiet_classifyLoop; reflexivity
                 | apply quiet_parseApkFile
                 | apply quiet_parseApkIconAndLabel
                 | apply quiet_deref
                 | quiet_step ].
  - left.
    repeat first [ apply quiet_classifyLoop; reflexivity
                 | apply quiet_parseIpaFile
                 | apply quiet_parseIpaIcon
                 | apply quiet_iconScanLoop
                 | apply quiet_deref
                 | quiet_step ].
Qed.

(** ** The dispatcher of the older revision *)

Lemma Rev0_classifyLoop_spec (files : list zip.File) (m : members) :
  Rev0.classifyLoop files m =
  (map (fun f => EvClassify (zip.Name f)) files,
   Returns (fold_left Rev0.classifyStep files m)).
Proof.
  revert m. induction files as [|f files IH]; intros m; [reflexivity |].
  simpl. rewrite IH. reflexivity.
Qed.

Section Rev0Dispatcher.

Variable W : World.
Variable xml_Decode : list byte -> error + Rev0.androidManifest.
Variable plist_Decode : list byte -> error + Rev0.iosPlist.
Variable apk_IconDefault : apk.Apk -> option image.
Variable png_Encode : image -> error + list byte.

(** X29: at the older revision, with the iOS platform requested, the
    record and the error of the icon step are returned together: when the
    property list yields a record, the call returns that record with
    [Icon] set to the bytes the icon step returned and with the icon
    step's error, so a record can come with an error; when the property
    list yields no record, the call panics on the nil record. *)
Theorem Rev0_NewAppParser_ios (name : string) (stat : FileInfo)
    (files : list zip.File) :
  openContainer W name = inr (stat, files) ->
  result (Rev0.NewAppParser W xml_Decode plist_Decode apk_IconDefault png_Encode
            name Rev0.PlatformTypeIOS) =
  match result (Rev0.parseIpaFile plist_Decode (plistFile (classified0 files))),
        result (Rev0.parseIpaIcon (iosIconFile (classified0 files))) with
  | Returns (Some a, _), Returns (icon, err) =>
      Returns (Some (Rev0.mkAppInfo (Rev0.Name a) (Rev0.BundleId a)
                       (Rev0.Version a) (Rev0.Build a) icon), err)
  | Returns (None, _), Returns _ => Panics NilDereference
  | Panics p, _ => Panics p
  | _, Panics p => Panics p
  end.
Proof.
  intros Hc. apply openContainer_inr in Hc as (file & Ho & Hs & Hz).
  unfold Rev0.NewAppParser. rewrite Ho, Hs, Hz.
  rewrite !result_emit_bind, result_bind, Rev0_classifyLoop_spec.
  cbn [result snd]. fold (classified0 files).
  change (Z.eqb Rev0.PlatformTypeIOS Rev0.PlatformTypeAndroid) with false.
  change (Z.eqb Rev0.PlatformTypeIOS Rev0.PlatformTypeIOS) with true.
  cbv iota. rewrite result_bind.
  destruct (result (Rev0.parseIpaFile plist_Decode (plistFile (classified0 files))))
    as [[info e0]|p]; [| reflexivity].
  rewrite result_bind.
  destruct (result (Rev0.parseIpaIcon (iosIconFile (classified0 files))))
    as [[icon err]|p]; [| destruct info; reflexivity].
  rewrite result_bind. destruct info; reflexivity.
Qed.

(** X30: at the older revision, a platform argument that is neither
    Android nor iOS gives the unknown-platform error once the container has
    been opened and its entries classified; no entry is opened. *)
Theorem Rev0_NewAppParser_unknown_platform (name : string) (stat : FileInfo)
    (files : list zip.File) (platformType : Z) :
  openContainer W name = inr (stat, files) ->
  platformType <> Rev0.PlatformTypeAndroid ->
  platformType <> Rev0.PlatformTypeIOS ->
  Rev0.NewAppParser W xml_Decode plist_Decode apk_IconDefault png_Encode
    name platformType =
    ([EvOsOpen name; EvStat; EvZipNewReader]
       ++ map (fun f => EvClassify (zip.Name f)) files,
     Returns (None, Some ErrUnknownPlatform)).
Proof.
  intros Hc Ha Hi. apply openContainer_inr in Hc as (file & Ho & Hs & Hz).
  unfold Rev0.NewAppParser. rewrite Ho, Hs, Hz, Rev0_classifyLoop_spec.
  apply Z.eqb_neq in Ha, Hi. simpl. rewrite Ha, Hi. simpl.
  now rewrite app_nil_r.
Qed.

End Rev0Dispatcher.

Lemma Rev0_NewAppParser_ios_witness :
  result (rev0Parser [helloInfoPlist; helloPkgInfo] Rev0.PlatformTypeIOS) =
  Returns (Some (Rev0.mkAppInfo "Hello" "com.kthcorp.helloworld" "1.0" "1.0" []),
           Some ErrIconNotFound).
Proof.
  exact (Rev0_NewAppParser_ios (rev0World [helloInfoPlist; helloPkgInfo])
           (fun _ => inl (libError "xml" "unexpected EOF"))
           (fun _ => inr helloPlist0) (fun _ => None)
           (fun _ => inl (libError "png" "no image"))
           "app.ipa" (mkFileInfo "app.ipa" 4096) [helloInfoPlist; helloPkgInfo]
           eq_refl).
Defined.

Lemma Rev0_NewAppParser_unknown_platform_witness :
  rev0Parser [helloInfoPlist; helloPkgInfo] 0 =
    ([EvOsOpen "app.ipa"; EvStat; EvZipNewReader;
      EvClassify "Payload/App.app/Info.plist"; EvClassify "Payload/App.app/PkgInfo"],
     Returns (None, Some ErrUnknownPlatform)).
Proof.
  apply (Rev0_NewAppParser_unknown_platform (rev0World [helloInfoPlist; helloPkgInfo])
           (fun _ => inl (libError "xml" "unexpected EOF"))
           (fun _ => inr helloPlist0) (fun _ => None)
           (fun _ => inl (libError "png" "no image"))
           "app.ipa" (mkFileInfo "app.ipa" 4096) [helloInfoPlist; helloPkgInfo] 0%Z);
    [reflexivity | discriminate | discriminate].
Defined.
